(** * build-reporter: the GitLaunch reporting action, [src/index.ts]

    A shallow embedding of [run] and of the parts of its two collaborators it
    touches ([@actions/core] and [@actions/http-client]), followed by the
    properties of the request dispatch, the validation and the response
    mapping.

    The action is one sequential function with effects on its host: it reads
    inputs, logs, issues at most one HTTP call, sets outputs and reports a
    failure.  The effects are kept as a trace of events, in the order the code
    performs them; a thrown value cuts the rest of the [try] block short and
    is handled by the single [catch] at the end of [run]. *)

From Stdlib Require Import String Ascii List ZArith Bool Lia DecimalString.
Import ListNotations.
Open Scope string_scope.

(* ------------------------------------------------------------------ *)
(** ** JavaScript values and primitives used by [run] *)

Module Js.

(** What a [throw] carries: an [Error] instance (a [TypeError] is one) with
    its message, or some other value. *)
Inductive Thrown : Type :=
| ErrorObject (message : string)
| NonError.

(** The values that reach [core.setOutput]: a string, [undefined], or a
    member inherited from [Object.prototype] (a function or the prototype
    itself), which index access on an object finds when the object has no own
    property of that name. *)
Inductive Value : Type :=
| VUndefined
| VString (s : string)
| VNative (member : string).

(** Truthiness, as tested by [!x] and [x || y]. *)
Definition truthy (v : Value) : bool :=
  match v with
  | VUndefined => false
  | VString s => negb (s =? "")
  | VNative _ => true
  end.

(** [a || b] for a string [a]. *)
Definition strOr (a b : string) : string :=
  if truthy (VString a) then a else b.

(** [a || b] for [a : string | undefined], with [None] for [undefined]. *)
Definition optOr (a : option string) (b : string) : string :=
  match a with
  | Some s => strOr s b
  | None => b
  end.

(** [a || b] for an arbitrary first operand. *)
Definition valOr (a : Value) (b : string) : Value :=
  if truthy a then a else VString b.

(** A [Record<string, string>]: the own properties of the object in the
    order the engine enumerates them; the keys are pairwise distinct. *)
Definition StringRecord := list (string * string).

Fixpoint own (r : StringRecord) (k : string) : option string :=
  match r with
  | [] => None
  | (k', v) :: r' => if k' =? k then Some v else own r' k
  end.

(** The members every plain object inherits from [Object.prototype]. *)
Definition objectPrototype : list string :=
  [ "constructor"; "__defineGetter__"; "__defineSetter__"; "hasOwnProperty";
    "__lookupGetter__"; "__lookupSetter__"; "isPrototypeOf";
    "propertyIsEnumerable"; "toString"; "valueOf"; "__proto__";
    "toLocaleString" ].

Definition inherited (k : string) : bool :=
  existsb (String.eqb k) objectPrototype.

(** [r[k]] on a record object: the own property, else the inherited member,
    else [undefined]. *)
Definition index (r : StringRecord) (k : string) : Value :=
  match own r k with
  | Some v => VString v
  | None => if inherited k then VNative k else VUndefined
  end.

(** The message of the [TypeError] raised by a property read on [null] or
    [undefined] (V8's wording). *)
Definition cannotRead (base prop : string) : Thrown :=
  ErrorObject ("Cannot read properties of " ++ base ++ " (reading '" ++ prop ++ "')").

(** [`${n}`] for an integer [n]: its decimal digits. *)
Definition showInt (n : Z) : string :=
  NilZero.string_of_int (Z.to_int n).

(** [xs.includes(x)] and [xs.join(sep)] on arrays of strings. *)
Definition includes (xs : list string) (x : string) : bool :=
  existsb (String.eqb x) xs.

Definition join (sep : string) (xs : list string) : string :=
  String.concat sep xs.

(** *** [JSON.stringify] on a record of strings *)

Definition dquote : ascii := "034"%char.
Definition bslash : ascii := "092"%char.

Definition hexDigit (n : nat) : ascii :=
  if (n <? 10)%nat then ascii_of_nat (48 + n) else ascii_of_nat (87 + n).

(** One character of a quoted JSON string: the two-character escapes, the
    [\u00xx] form for the other control characters, anything else as is. *)
Definition quoteChar (c : ascii) : string :=
  let n := nat_of_ascii c in
  let esc (s : string) := String bslash s in
  if (n =? 8)%nat then esc "b"
  else if (n =? 9)%nat then esc "t"
  else if (n =? 10)%nat then esc "n"
  else if (n =? 12)%nat then esc "f"
  else if (n =? 13)%nat then esc "r"
  else if (n =? 34)%nat then esc (String dquote "")
  else if (n =? 92)%nat then esc (String bslash "")
  else if (n <? 32)%nat then
    esc ("u00" ++ String (hexDigit (n / 16)) (String (hexDigit (n mod 16)) ""))
  else String c "".

Fixpoint quoteChars (s : string) : string :=
  match s with
  | EmptyString => ""
  | String c s' => quoteChar c ++ quoteChars s'
  end.

Definition quote (s : string) : string :=
  String dquote (quoteChars s ++ String dquote "").

Definition stringifyRecord (r : StringRecord) : string :=
  "{" ++ join "," (map (fun kv => quote (fst kv) ++ ":" ++ quote (snd kv)) r) ++ "}".

(** [JSON.stringify(x)] for [x : Record<string,string> | undefined]:
    [undefined] stays [undefined]. *)
Definition JSON_stringify (x : option StringRecord) : Value :=
  match x with
  | Some r => VString (stringifyRecord r)
  | None => VUndefined
  end.

End Js.

Import Js.

(* ------------------------------------------------------------------ *)
(** ** The host: effects, inputs, and the HTTP client *)

Inductive Method : Type := POST | PATCH.

(** A JSON call as the client sends it: the method, the URL, the headers the
    client was constructed with, and the object passed as body. *)
Record HttpRequest : Type := {
  verb : Method;
  url : string;
  headers : list (string * string);
  payload : list (string * string)
}.

(** The parsed body of a response, at the types the source declares for it.
    The casts in [run] are not checked at run time, so a body of either
    interface, or none, can arrive with any status code.  A body that has
    only some of the fields of an interface has no value here: the
    statements below either name the shape of the body they are about, or
    say nothing that depends on it. *)
Module Response.

(** [interface BuildResponse] and [interface ErrorResponse]. *)
Record BuildResponse : Type := {
  _id : string;
  buildId : string;
  deployments : StringRecord;
  createdAt : string;
  updatedAt : string
}.

Record ErrorResponse : Type := {
  error : string
}.

(** [response.result : BuildResponse | ErrorResponse | null]: the parsed
    body, [null] when the response has none. *)
Inductive Result : Type :=
| ResultBuild (b : BuildResponse)
| ResultError (e : ErrorResponse)
| ResultNull.

Record TypedResponse : Type := {
  statusCode : Z;
  result : Result
}.

End Response.

Import Response.

(** The calls [run] makes that the host can observe, in order. *)
Inductive Event : Type :=
| Info (message : string)
| Http (req : HttpRequest)
| SetOutput (name : string) (value : Value)
| SetFailed (message : string).

Definition Trace := list Event.

(** A computation inside the [try] block: the events performed so far and
    either the thrown value that ended it or its result. *)
Definition Eff (A : Type) : Type := (Trace * (Thrown + A))%type.

Definition ret {A} (a : A) : Eff A := ([], inr a).

Definition throw {A} (e : Thrown) : Eff A := ([], inl e).

Definition bind {A B} (m : Eff A) (k : A -> Eff B) : Eff B :=
  match m with
  | (t, inl e) => (t, inl e)
  | (t, inr a) => let (t', r) := k a in ((t ++ t')%list, r)
  end.

Definition emit (e : Event) : Eff unit := ([e], inr tt).

(** A call that performs no observable event itself but may throw. *)
Definition call {A} (r : Thrown + A) : Eff A := ([], r).

Declare Scope eff_scope.
Delimit Scope eff_scope with eff.
Notation "x <- m ;; k" := (bind m (fun x => k))
  (at level 61, m at next level, right associativity) : eff_scope.
Notation "m ;;; k" := (bind m (fun _ => k))
  (at level 61, right associativity) : eff_scope.
Open Scope eff_scope.

(** [core.getInput(name, { required })] as the host provides it: the value,
    or a throw (the real host throws for a required input that is not
    supplied; the host of the test suite never does). *)
Definition GetInput := string -> bool -> Thrown + string.

(** The remote service behind the client: a response, or a transport
    failure thrown by the call. *)
Definition Remote := HttpRequest -> Thrown + TypedResponse.

Record HttpClient : Type := {
  userAgent : string;
  requestHeaders : list (string * string)
}.

Definition sendJson (remote : Remote) (m : Method) (client : HttpClient)
    (target : string) (obj : list (string * string)) : Eff TypedResponse :=
  let req := {| verb := m; url := target;
                headers := requestHeaders client; payload := obj |} in
  emit (Http req) ;;; call (remote req).

Definition postJson (remote : Remote) := sendJson remote POST.
Definition patchJson (remote : Remote) := sendJson remote PATCH.

(** Property reads on [response.result] after the casts
    [as BuildResponse] and [as ErrorResponse], which check nothing. *)

(** [result.buildId] *)
Definition read_buildId (r : Result) : Thrown + Value :=
  match r with
  | ResultBuild b => inr (VString (Response.buildId b))
  | ResultError _ => inr VUndefined
  | ResultNull => inl (cannotRead "null" "buildId")
  end.

(** [result.deployments] *)
Definition read_deployments (r : Result) : Thrown + option StringRecord :=
  match r with
  | ResultBuild b => inr (Some (deployments b))
  | ResultError _ => inr None
  | ResultNull => inl (cannotRead "null" "deployments")
  end.

(** [d[k]] for [d = result.deployments] *)
Definition read_index (d : option StringRecord) (k : string) : Thrown + Value :=
  match d with
  | Some r => inr (index r k)
  | None => inl (cannotRead "undefined" k)
  end.

(** [error?.error] *)
Definition read_error (r : Result) : option string :=
  match r with
  | ResultError e => Some (error e)
  | ResultBuild _ => None
  | ResultNull => None
  end.

(* ------------------------------------------------------------------ *)
(** ** [run] *)

(** The constants bound at the top of the [try] block, lines 20 to 26. *)
Record Inputs : Type := {
  apiKey : string;
  apiUrl : string;
  serviceId : string;
  action : string;
  buildId : string;
  environment : string;
  status : string
}.

Definition readInputs (getInput : GetInput) : Eff Inputs :=
  apiKey <- call (getInput "api-key" true) ;;
  apiUrl <- call (getInput "api-url" false) ;;
  serviceId <- call (getInput "service-id" true) ;;
  action <- call (getInput "action" true) ;;
  buildId <- call (getInput "build-id" true) ;;
  environment <- call (getInput "environment" false) ;;
  status <- call (getInput "status" false) ;;
  ret {| apiKey := apiKey;
         apiUrl := strOr apiUrl "https://gitlaunch.dev";
         serviceId := serviceId;
         action := action;
         buildId := buildId;
         environment := environment;
         status := status |}.

(** Lines 28 to 35: the client and the base URL, fixed by the inputs. *)
Definition newClient (i : Inputs) : HttpClient :=
  {| userAgent := "gitlaunch-action";
     requestHeaders := [ ("Authorization", "Bearer " ++ apiKey i);
                         ("Content-Type", "application/json") ] |}.

Definition baseUrl (i : Inputs) : string :=
  apiUrl i ++ "/api/v1/services/" ++ serviceId i.

(** The [else] branch shared by both actions. *)
Definition rejected {A} (response : TypedResponse) : Eff A :=
  throw (ErrorObject
           (optOr (read_error (result response))
                  ("Failed with status " ++ showInt (statusCode response)))).

(** [case "report-build"], lines 45 to 58: the response mapped to outputs or
    to a failure. *)
Definition reportMapped (i : Inputs) (response : TypedResponse) : Eff unit :=
  if (statusCode response =? 201)%Z || (statusCode response =? 200)%Z then
    let result := result response in
    emit (Info ("Build " ++ buildId i ++ " reported successfully")) ;;;
    id <- call (read_buildId result) ;;
    emit (SetOutput "build-id" id) ;;;
    d <- call (read_deployments result) ;;
    emit (SetOutput "deployment-status" (JSON_stringify d))
  else rejected response.

(** [case "report-build"] *)
Definition reportBuild (remote : Remote) (i : Inputs) : Eff unit :=
  emit (Info ("Reporting build " ++ buildId i ++ " to GitLaunch...")) ;;;
  response <- postJson remote (newClient i) (baseUrl i ++ "/builds")
                [("buildId", buildId i)] ;;
  reportMapped i response.

Definition validStatuses : list string :=
  ["deploying"; "deployed"; "error"; "cancelled"].

(** [case "update-status"], lines 86 to 99: the response mapped to outputs
    or to a failure. *)
Definition updateMapped (i : Inputs) (response : TypedResponse) : Eff unit :=
  if (statusCode response =? 200)%Z then
    let result := result response in
    emit (Info "Deployment status updated successfully") ;;;
    id <- call (read_buildId result) ;;
    emit (SetOutput "build-id" id) ;;;
    d <- call (read_deployments result) ;;
    v <- call (read_index d (environment i)) ;;
    emit (SetOutput "deployment-status" (valOr v (status i)))
  else rejected response.

(** [case "update-status"] *)
Definition updateStatus (remote : Remote) (i : Inputs) : Eff unit :=
  if negb (truthy (VString (environment i))) then
    throw (ErrorObject "environment is required for update-status action")
  else if negb (truthy (VString (status i))) then
    throw (ErrorObject "status is required for update-status action")
  else if negb (includes validStatuses (status i)) then
    throw (ErrorObject ("Invalid status: " ++ status i ++ ". Must be one of: "
                        ++ join ", " validStatuses))
  else
    emit (Info ("Updating deployment status for build " ++ buildId i
                ++ " in " ++ environment i ++ " to " ++ status i ++ "...")) ;;;
    response <- patchJson remote (newClient i)
                  (baseUrl i ++ "/builds/" ++ buildId i ++ "/deploy/"
                   ++ environment i)
                  [("status", status i)] ;;
    updateMapped i response.

(** The [switch] on [action]. *)
Definition dispatch (remote : Remote) (i : Inputs) : Eff unit :=
  if action i =? "report-build" then reportBuild remote i
  else if action i =? "update-status" then updateStatus remote i
  else throw (ErrorObject ("Invalid action: " ++ action i
                           ++ ". Must be 'report-build' or 'update-status'")).

(** The body of the [try] block. *)
Definition attempt (getInput : GetInput) (remote : Remote) : Eff unit :=
  i <- readInputs getInput ;;
  dispatch remote i.

(** The [catch] clause, lines 108 to 114. *)
Definition handle (m : Eff unit) : Trace :=
  match m with
  | (t, inr _) => t
  | (t, inl (ErrorObject message)) => (t ++ [SetFailed message])%list
  | (t, inl NonError) => (t ++ [SetFailed "An unexpected error occurred"])%list
  end.

Definition run (getInput : GetInput) (remote : Remote) : Trace :=
  handle (attempt getInput remote).

(** *** What the host sees of a run *)

Fixpoint outputs (t : Trace) : list (string * Value) :=
  match t with
  | [] => []
  | SetOutput n v :: t' => (n, v) :: outputs t'
  | _ :: t' => outputs t'
  end.

Fixpoint failures (t : Trace) : list string :=
  match t with
  | [] => []
  | SetFailed m :: t' => m :: failures t'
  | _ :: t' => failures t'
  end.

Fixpoint requests (t : Trace) : list HttpRequest :=
  match t with
  | [] => []
  | Http r :: t' => r :: requests t'
  | _ :: t' => requests t'
  end.

(** A computation that never reports a failure itself. *)
Definition quiet {A} (m : Eff A) : Prop := failures (fst m) = [].

(** The hosts of the test suite: [getInput] looks the name up in a table and
    yields the empty string for a missing or empty entry, whatever the
    options; the client resolves to a fixed response. *)
Definition mockGetInput (inputs : list (string * string)) : GetInput :=
  fun name _ => inr (strOr (match own inputs name with Some v => v | None => "" end) "").

Definition mockResolvedValue (response : TypedResponse) : Remote :=
  fun _ => inr response.

(* ------------------------------------------------------------------ *)
(** ** The contract, in the words of the specification *)

Module Spec.

(** The wire protocol: both calls go to
    [{apiUrl}/api/v1/services/{serviceId}] with a bearer credential. *)
Definition authHeaders (i : Inputs) : list (string * string) :=
  [ ("Authorization", "Bearer " ++ apiKey i);
    ("Content-Type", "application/json") ].

Definition reportRequest (i : Inputs) : HttpRequest :=
  {| verb := POST;
     url := apiUrl i ++ "/api/v1/services/" ++ serviceId i ++ "/builds";
     headers := authHeaders i;
     payload := [("buildId", buildId i)] |}.

Definition updateRequest (i : Inputs) : HttpRequest :=
  {| verb := PATCH;
     url := apiUrl i ++ "/api/v1/services/" ++ serviceId i ++ "/builds/"
            ++ buildId i ++ "/deploy/" ++ environment i;
     headers := authHeaders i;
     payload := [("status", status i)] |}.

(** The success codes of each action. *)
Definition successCodes (action : string) : list Z :=
  if action =? "report-build" then [200; 201]%Z
  else if action =? "update-status" then [200]%Z
  else [].

(** The 2xx range. *)
Definition is2xx (code : Z) : Prop := (200 <= code < 300)%Z.

Definition environmentRequired : string :=
  "environment is required for update-status action".

Definition statusRequired : string :=
  "status is required for update-status action".

Definition invalidStatus (s : string) : string :=
  "Invalid status: " ++ s
  ++ ". Must be one of: deploying, deployed, error, cancelled".

Definition invalidAction (a : string) : string :=
  "Invalid action: " ++ a ++ ". Must be 'report-build' or 'update-status'".

Definition failedWithStatus (code : Z) : string :=
  "Failed with status " ++ showInt code.

(** The checks of [update-status] in their order, each with the message of
    its failure, and the message of the first one that fails. *)
Definition updateStatusChecks (i : Inputs) : list (bool * string) :=
  [ (negb (environment i =? ""), environmentRequired);
    (negb (status i =? ""), statusRequired);
    (existsb (String.eqb (status i)) ["deploying"; "deployed"; "error"; "cancelled"],
     invalidStatus (status i)) ].

Fixpoint firstFailure (checks : list (bool * string)) : option string :=
  match checks with
  | [] => None
  | (true, _) :: rest => firstFailure rest
  | (false, message) :: _ => Some message
  end.

(** The configurations that differ at most in [environment] and [status]. *)
Definition sameButEnvironmentAndStatus (i j : Inputs) : Prop :=
  apiKey i = apiKey j /\ apiUrl i = apiUrl j /\ serviceId i = serviceId j
  /\ action i = action j /\ buildId i = buildId j.

(** The run received [response] from the remote service. *)
Definition received (remote : Remote) (t : Trace) (response : TypedResponse) : Prop :=
  exists req, In req (requests t) /\ remote req = inr response.

End Spec.

Import Spec.

(* ------------------------------------------------------------------ *)
(** ** The inputs and responses of the test suite *)

Module Fixtures.

Definition common : list (string * string) :=
  [ ("api-key", "pk_test_key"); ("api-url", "https://gitlaunch.io");
    ("service-id", "service123"); ("build-id", "abc123") ].

Definition table (action environment status : string) : list (string * string) :=
  (common ++ [ ("action", action); ("environment", environment);
               ("status", status) ])%list.

(** The constants [run] binds for such a table. *)
Definition config (action environment status : string) : Inputs :=
  {| apiKey := "pk_test_key"; apiUrl := "https://gitlaunch.io";
     serviceId := "service123"; action := action; buildId := "abc123";
     environment := environment; status := status |}.

Definition build (d : StringRecord) : Result :=
  ResultBuild {| _id := "build-id-123"; Response.buildId := "abc123";
                 deployments := d;
                 createdAt := "2024-01-01T00:00:00Z";
                 updatedAt := "2024-01-01T00:00:00Z" |}.

Definition respond (code : Z) (r : Result) : Remote :=
  mockResolvedValue {| statusCode := code; result := r |}.

Definition created : Remote := respond 201 (build []).

Definition unauthorized : Remote :=
  respond 401 (ResultError {| error := "Invalid API key" |}).

Definition updated : Remote := respond 200 (build [("staging", "deployed")]).

End Fixtures.

(* ------------------------------------------------------------------ *)
(** ** The paths through [run] *)

(** The reads of lines 20 to 26, in order, each with its [required] flag. *)
Definition inputReads : list (string * bool) :=
  [ ("api-key", true); ("api-url", false); ("service-id", true);
    ("action", true); ("build-id", true); ("environment", false);
    ("status", false) ].

(** Reading a list of inputs in order, up to the first read that throws. *)
Fixpoint readAll (getInput : GetInput) (reads : list (string * bool))
    : Thrown + list string :=
  match reads with
  | [] => inr []
  | (name, required) :: rest =>
      match getInput name required with
      | inl e => inl e
      | inr v =>
          match readAll getInput rest with
          | inl e => inl e
          | inr vs => inr (v :: vs)
          end
      end
  end.

(** What the [catch] clause reports for a thrown value. *)
Definition thrownMessage (e : Thrown) : string :=
  match e with
  | ErrorObject message => message
  | NonError => "An unexpected error occurred"
  end.

(** The log lines of [run]. *)
Definition reporting (i : Inputs) : string :=
  "Reporting build " ++ buildId i ++ " to GitLaunch...".

Definition reported (i : Inputs) : string :=
  "Build " ++ buildId i ++ " reported successfully".

Definition updating (i : Inputs) : string :=
  "Updating deployment status for build " ++ buildId i ++ " in "
  ++ environment i ++ " to " ++ status i ++ "...".

Definition updatedLine : string := "Deployment status updated successfully".

(** Every way a run can go, with the events it leaves: the read of the
    inputs throws; the [switch] or the validation throws; the call throws;
    the response is rejected; the response is accepted and its body is a
    build record, an error record, or missing. *)
Inductive Path (getInput : GetInput) (remote : Remote) : Trace -> Prop :=
| PathUnresolved (e : Thrown) :
    readInputs getInput = throw e ->
    Path getInput remote [SetFailed (thrownMessage e)]
| PathInvalidAction (i : Inputs) :
    readInputs getInput = ret i ->
    action i <> "report-build" -> action i <> "update-status" ->
    Path getInput remote [SetFailed (invalidAction (action i))]
| PathNoEnvironment (i : Inputs) :
    readInputs getInput = ret i ->
    action i = "update-status" -> environment i = "" ->
    Path getInput remote [SetFailed environmentRequired]
| PathNoStatus (i : Inputs) :
    readInputs getInput = ret i ->
    action i = "update-status" -> environment i <> "" -> status i = "" ->
    Path getInput remote [SetFailed statusRequired]
| PathBadStatus (i : Inputs) :
    readInputs getInput = ret i ->
    action i = "update-status" -> environment i <> "" -> status i <> "" ->
    ~ In (status i) validStatuses ->
    Path getInput remote [SetFailed (invalidStatus (status i))]
| PathReportThrown (i : Inputs) (e : Thrown) :
    readInputs getInput = ret i ->
    action i = "report-build" ->
    remote (reportRequest i) = inl e ->
    Path getInput remote
      [ Info (reporting i); Http (reportRequest i);
        SetFailed (thrownMessage e) ]
| PathReportRejected (i : Inputs) (response : TypedResponse) :
    readInputs getInput = ret i ->
    action i = "report-build" ->
    remote (reportRequest i) = inr response ->
    statusCode response <> 200%Z -> statusCode response <> 201%Z ->
    Path getInput remote
      [ Info (reporting i); Http (reportRequest i);
        SetFailed (optOr (read_error (result response))
                         (failedWithStatus (statusCode response))) ]
| PathReportBuild (i : Inputs) (response : TypedResponse) (b : BuildResponse) :
    readInputs getInput = ret i ->
    action i = "report-build" ->
    remote (reportRequest i) = inr response ->
    statusCode response = 200%Z \/ statusCode response = 201%Z ->
    result response = ResultBuild b ->
    Path getInput remote
      [ Info (reporting i); Http (reportRequest i); Info (reported i);
        SetOutput "build-id" (VString (Response.buildId b));
        SetOutput "deployment-status" (VString (stringifyRecord (deployments b))) ]
| PathReportErrorBody (i : Inputs) (response : TypedResponse) (e : ErrorResponse) :
    readInputs getInput = ret i ->
    action i = "report-build" ->
    remote (reportRequest i) = inr response ->
    statusCode response = 200%Z \/ statusCode response = 201%Z ->
    result response = ResultError e ->
    Path getInput remote
      [ Info (reporting i); Http (reportRequest i); Info (reported i);
        SetOutput "build-id" VUndefined;
        SetOutput "deployment-status" VUndefined ]
| PathReportNoBody (i : Inputs) (response : TypedResponse) :
    readInputs getInput = ret i ->
    action i = "report-build" ->
    remote (reportRequest i) = inr response ->
    statusCode response = 200%Z \/ statusCode response = 201%Z ->
    result response = ResultNull ->
    Path getInput remote
      [ Info (reporting i); Http (reportRequest i); Info (reported i);
        SetFailed "Cannot read properties of null (reading 'buildId')" ]
| PathUpdateThrown (i : Inputs) (e : Thrown) :
    readInputs getInput = ret i ->
    action i = "update-status" ->
    environment i <> "" -> In (status i) validStatuses ->
    remote (updateRequest i) = inl e ->
    Path getInput remote
      [ Info (updating i); Http (updateRequest i);
        SetFailed (thrownMessage e) ]
| PathUpdateRejected (i : Inputs) (response : TypedResponse) :
    readInputs getInput = ret i ->
    action i = "update-status" ->
    environment i <> "" -> In (status i) validStatuses ->
    remote (updateRequest i) = inr response ->
    statusCode response <> 200%Z ->
    Path getInput remote
      [ Info (updating i); Http (updateRequest i);
        SetFailed (optOr (read_error (result response))
                         (failedWithStatus (statusCode response))) ]
| PathUpdateBuild (i : Inputs) (response : TypedResponse) (b : BuildResponse) :
    readInputs getInput = ret i ->
    action i = "update-status" ->
    environment i <> "" -> In (status i) validStatuses ->
    remote (updateRequest i) = inr response ->
    statusCode response = 200%Z ->
    result response = ResultBuild b ->
    Path getInput remote
      [ Info (updating i); Http (updateRequest i); Info updatedLine;
        SetOutput "build-id" (VString (Response.buildId b));
        SetOutput "deployment-status"
          (valOr (index (deployments b) (environment i)) (status i)) ]
| PathUpdateErrorBody (i : Inputs) (response : TypedResponse) (e : ErrorResponse) :
    readInputs getInput = ret i ->
    action i = "update-status" ->
    environment i <> "" -> In (status i) validStatuses ->
    remote (updateRequest i) = inr response ->
    statusCode response = 200%Z ->
    result response = ResultError e ->
    Path getInput remote
      [ Info (updating i); Http (updateRequest i); Info updatedLine;
        SetOutput "build-id" VUndefined;
        SetFailed ("Cannot read properties of undefined (reading '"
                   ++ environment i ++ "')") ]
| PathUpdateNoBody (i : Inputs) (response : TypedResponse) :
    readInputs getInput = ret i ->
    action i = "update-status" ->
    environment i <> "" -> In (status i) validStatuses ->
    remote (updateRequest i) = inr response ->
    statusCode response = 200%Z ->
    result response = ResultNull ->
    Path getInput remote
      [ Info (updating i); Http (updateRequest i); Info updatedLine;
        SetFailed "Cannot read properties of null (reading 'buildId')" ].

(** Hosts for the examples: one that enforces [required] by throwing for an
    empty value, and a remote service that cannot be reached. *)
Definition strictGetInput (inputs : list (string * string)) : GetInput :=
  fun name required =>
    let value := match own inputs name with Some v => v | None => "" end in
    if required && negb (truthy (VString value))
    then inl (ErrorObject ("Input required and not supplied: " ++ name))
    else inr value.

Definition unreachable (e : Thrown) : Remote := fun _ => inl e.

(* ------------------------------------------------------------------ *)
(** ** Equations of [run], one per path through the [switch] *)

Lemma append_assoc (a b c : string) : (a ++ b) ++ c = a ++ (b ++ c).
Proof.
  induction a as [| x a IH]; simpl; [reflexivity | now rewrite IH].
Qed.

Lemma truthy_string (s : string) : truthy (VString s) = true <-> s <> "".
Proof.
  simpl. destruct (String.eqb_spec s ""); simpl; split; congruence.
Qed.

Lemma falsy_string (s : string) : truthy (VString s) = false <-> s = "".
Proof.
  simpl. destruct (String.eqb_spec s ""); simpl; split; congruence.
Qed.

Lemma includes_In (xs : list string) (x : string) :
  includes xs x = true <-> In x xs.
Proof.
  unfold includes. rewrite existsb_exists. split.
  - intros [y [Hy He]]. apply String.eqb_eq in He. now subst.
  - intros H. exists x. split; [assumption | apply String.eqb_refl].
Qed.

Lemma includes_not_In (xs : list string) (x : string) :
  includes xs x = false <-> ~ In x xs.
Proof.
  rewrite <- includes_In. destruct (includes xs x); split; congruence.
Qed.

Lemma valid_status_nonempty (s : string) : In s validStatuses -> s <> "".
Proof.
  unfold validStatuses. simpl. intros H E. subst s.
  repeat (destruct H as [H | H]; [discriminate H |]). exact H.
Qed.

(** Once the inputs are read, [run] is the [switch] under the [catch]. *)
Lemma run_resolved (getInput : GetInput) (remote : Remote) (i : Inputs) :
  readInputs getInput = ret i ->
  run getInput remote = handle (dispatch remote i).
Proof.
  intros H. unfold run, attempt. rewrite H. unfold ret, bind.
  destruct (dispatch remote i) as [t r]. reflexivity.
Qed.

(** A throw while the inputs are read is all that happens. *)
Lemma run_unresolved (getInput : GetInput) (remote : Remote) (e : Thrown) :
  readInputs getInput = throw e ->
  run getInput remote = handle (throw e).
Proof.
  intros H. unfold run, attempt. rewrite H. reflexivity.
Qed.

Lemma dispatch_report (remote : Remote) (i : Inputs) :
  action i = "report-build" -> dispatch remote i = reportBuild remote i.
Proof. intros H. unfold dispatch. now rewrite H. Qed.

Lemma dispatch_update (remote : Remote) (i : Inputs) :
  action i = "update-status" -> dispatch remote i = updateStatus remote i.
Proof. intros H. unfold dispatch. now rewrite H. Qed.

Lemma dispatch_default (remote : Remote) (i : Inputs) :
  action i <> "report-build" -> action i <> "update-status" ->
  dispatch remote i = throw (ErrorObject (invalidAction (action i))).
Proof.
  intros H1 H2. unfold dispatch.
  apply String.eqb_neq in H1. apply String.eqb_neq in H2.
  now rewrite H1, H2.
Qed.

(** The three validation exits of [update-status]. *)
Lemma updateStatus_no_environment (remote : Remote) (i : Inputs) :
  environment i = "" ->
  updateStatus remote i = throw (ErrorObject environmentRequired).
Proof.
  intros H. unfold updateStatus. now rewrite H.
Qed.

Lemma updateStatus_no_status (remote : Remote) (i : Inputs) :
  environment i <> "" -> status i = "" ->
  updateStatus remote i = throw (ErrorObject statusRequired).
Proof.
  intros He Hs. unfold updateStatus.
  apply truthy_string in He. rewrite He, Hs. reflexivity.
Qed.

Lemma updateStatus_bad_status (remote : Remote) (i : Inputs) :
  environment i <> "" -> status i <> "" -> ~ In (status i) validStatuses ->
  updateStatus remote i = throw (ErrorObject (invalidStatus (status i))).
Proof.
  intros He Hs Hv. unfold updateStatus.
  apply truthy_string in He. apply truthy_string in Hs.
  apply includes_not_In in Hv. rewrite He, Hs, Hv. reflexivity.
Qed.

Lemma updateStatus_valid (remote : Remote) (i : Inputs) :
  environment i <> "" -> In (status i) validStatuses ->
  updateStatus remote i =
    (emit (Info ("Updating deployment status for build " ++ buildId i
                 ++ " in " ++ environment i ++ " to " ++ status i ++ "...")) ;;;
     emit (Http (updateRequest i)) ;;;
     response <- call (remote (updateRequest i)) ;;
     updateMapped i response).
Proof.
  intros He Hv. unfold updateStatus.
  pose proof (valid_status_nonempty _ Hv) as Hs.
  apply truthy_string in He. apply truthy_string in Hs.
  apply includes_In in Hv. rewrite He, Hs, Hv. simpl negb. cbv iota.
  unfold patchJson, sendJson, updateRequest, baseUrl, newClient, authHeaders.
  simpl requestHeaders.
  rewrite !append_assoc.
  destruct (remote _) as [e | response]; [reflexivity |].
  unfold bind, emit, call. destruct (updateMapped i response). reflexivity.
Qed.

Lemma reportBuild_eq (remote : Remote) (i : Inputs) :
  reportBuild remote i =
    (emit (Info ("Reporting build " ++ buildId i ++ " to GitLaunch...")) ;;;
     emit (Http (reportRequest i)) ;;;
     response <- call (remote (reportRequest i)) ;;
     reportMapped i response).
Proof.
  unfold reportBuild, postJson, sendJson, reportRequest, baseUrl, newClient,
    authHeaders.
  simpl requestHeaders.
  rewrite !append_assoc.
  destruct (remote _) as [e | response]; [reflexivity |].
  unfold bind, emit, call. destruct (reportMapped i response). reflexivity.
Qed.

(* ------------------------------------------------------------------ *)
(** ** Validation: no request leaves before the inputs are accepted *)

Section Validation.

Variable getInput : GetInput.
Variable remote : Remote.
Variable i : Inputs.
Hypothesis resolved : readInputs getInput = ret i.

Lemma run_invalid_action :
  action i <> "report-build" -> action i <> "update-status" ->
  run getInput remote = [SetFailed (invalidAction (action i))].
Proof.
  intros H1 H2. rewrite (run_resolved _ remote _ resolved), dispatch_default by assumption.
  reflexivity.
Qed.

Lemma run_no_environment :
  action i = "update-status" -> environment i = "" ->
  run getInput remote = [SetFailed environmentRequired].
Proof.
  intros Ha He.
  rewrite (run_resolved _ remote _ resolved), dispatch_update, updateStatus_no_environment
    by assumption.
  reflexivity.
Qed.

Lemma run_no_status :
  action i = "update-status" -> environment i <> "" -> status i = "" ->
  run getInput remote = [SetFailed statusRequired].
Proof.
  intros Ha He Hs.
  rewrite (run_resolved _ remote _ resolved), dispatch_update, updateStatus_no_status
    by assumption.
  reflexivity.
Qed.

Lemma run_bad_status :
  action i = "update-status" -> environment i <> "" -> status i <> "" ->
  ~ In (status i) validStatuses ->
  run getInput remote = [SetFailed (invalidStatus (status i))].
Proof.
  intros Ha He Hs Hv.
  rewrite (run_resolved _ remote _ resolved), dispatch_update, updateStatus_bad_status
    by assumption.
  reflexivity.
Qed.

End Validation.

(** C4. An [update-status] invocation whose environment is not empty and
    whose status is not empty and not one of deploying, deployed, error,
    cancelled fails with the message
    "Invalid status: {status}. Must be one of: deploying, deployed, error, cancelled"
    and issues no request. *)
Theorem invalid_status_rejected (getInput : GetInput) (remote : Remote) (i : Inputs) :
  readInputs getInput = ret i ->
  action i = "update-status" ->
  environment i <> "" ->
  status i <> "" ->
  ~ In (status i) ["deploying"; "deployed"; "error"; "cancelled"] ->
  failures (run getInput remote)
    = ["Invalid status: " ++ status i
       ++ ". Must be one of: deploying, deployed, error, cancelled"]
  /\ requests (run getInput remote) = [].
Proof.
  intros R Ha He Hs Hv. rewrite (run_bad_status _ remote _ R Ha He Hs Hv).
  split; reflexivity.
Qed.

Lemma invalid_status_rejected_witness :
  failures (run (mockGetInput (Fixtures.table "update-status" "staging" "invalid-status"))
                Fixtures.updated)
    = ["Invalid status: invalid-status. Must be one of: deploying, deployed, error, cancelled"]
  /\ requests (run (mockGetInput (Fixtures.table "update-status" "staging" "invalid-status"))
                  Fixtures.updated) = [].
Proof.
  apply (@invalid_status_rejected
           (mockGetInput (Fixtures.table "update-status" "staging" "invalid-status"))
           Fixtures.updated
           (Fixtures.config "update-status" "staging" "invalid-status")).
  - reflexivity.
  - reflexivity.
  - discriminate.
  - discriminate.
  - simpl. intros H. repeat (destruct H as [H | H]; [discriminate H |]). exact H.
Defined.

(** C5. An [update-status] invocation with an empty environment fails with
    "environment is required for update-status action"; with an environment
    but an empty status it fails with
    "status is required for update-status action"; neither issues a
    request. *)
Theorem missing_field_rejected (getInput : GetInput) (remote : Remote) (i : Inputs) :
  readInputs getInput = ret i ->
  action i = "update-status" ->
  (environment i = "" ->
     failures (run getInput remote)
       = ["environment is required for update-status action"]
     /\ requests (run getInput remote) = [])
  /\ (environment i <> "" -> status i = "" ->
     failures (run getInput remote)
       = ["status is required for update-status action"]
     /\ requests (run getInput remote) = []).
Proof.
  intros R Ha. split.
  - intros He. rewrite (run_no_environment _ remote _ R Ha He). split; reflexivity.
  - intros He Hs. rewrite (run_no_status _ remote _ R Ha He Hs). split; reflexivity.
Qed.

Lemma missing_field_rejected_witness :
  (failures (run (mockGetInput (Fixtures.table "update-status" "" "deployed"))
                 Fixtures.updated)
     = ["environment is required for update-status action"]
   /\ requests (run (mockGetInput (Fixtures.table "update-status" "" "deployed"))
                   Fixtures.updated) = [])
  /\ (failures (run (mockGetInput (Fixtures.table "update-status" "staging" ""))
                    Fixtures.updated)
        = ["status is required for update-status action"]
      /\ requests (run (mockGetInput (Fixtures.table "update-status" "staging" ""))
                      Fixtures.updated) = []).
Proof.
  split.
  - apply (proj1 (@missing_field_rejected
                    (mockGetInput (Fixtures.table "update-status" "" "deployed"))
                    Fixtures.updated
                    (Fixtures.config "update-status" "" "deployed")
                    eq_refl eq_refl)).
    reflexivity.
  - apply (proj2 (@missing_field_rejected
                    (mockGetInput (Fixtures.table "update-status" "staging" ""))
                    Fixtures.updated
                    (Fixtures.config "update-status" "staging" "")
                    eq_refl eq_refl)).
    + discriminate.
    + reflexivity.
Defined.

(** C6. An invocation whose action is neither "report-build" nor
    "update-status" fails with the message
    "Invalid action: {action}. Must be 'report-build' or 'update-status'"
    and issues no request. *)
Theorem invalid_action_rejected (getInput : GetInput) (remote : Remote) (i : Inputs) :
  readInputs getInput = ret i ->
  action i <> "report-build" ->
  action i <> "update-status" ->
  failures (run getInput remote)
    = ["Invalid action: " ++ action i
       ++ ". Must be 'report-build' or 'update-status'"]
  /\ requests (run getInput remote) = [].
Proof.
  intros R H1 H2. rewrite (run_invalid_action _ remote _ R H1 H2).
  split; reflexivity.
Qed.

Lemma invalid_action_rejected_witness :
  failures (run (mockGetInput (Fixtures.table "invalid-action" "" ""))
                Fixtures.created)
    = ["Invalid action: invalid-action. Must be 'report-build' or 'update-status'"]
  /\ requests (run (mockGetInput (Fixtures.table "invalid-action" "" ""))
                  Fixtures.created) = [].
Proof.
  apply (@invalid_action_rejected
           (mockGetInput (Fixtures.table "invalid-action" "" ""))
           Fixtures.created
           (Fixtures.config "invalid-action" "" ""));
    [reflexivity | discriminate | discriminate].
Defined.

(* ------------------------------------------------------------------ *)
(** ** The request and the mapping of the response *)

Lemma handle_emit (e : Event) (k : Eff unit) :
  handle (emit e ;;; k) = e :: handle k.
Proof.
  unfold bind, emit. destruct k as [t [[m |] | []]]; reflexivity.
Qed.

Lemma handle_call {A} (r : Thrown + A) (k : A -> Eff unit) :
  handle (x <- call r ;; k x)
  = match r with
    | inl e => handle (throw e)
    | inr a => handle (k a)
    end.
Proof.
  unfold bind, call. destruct r as [e | a]; [reflexivity |].
  destruct (k a) as [t r]. reflexivity.
Qed.

(** The four ways [update-status] ends once the response is there. *)
Lemma updateMapped_rejected (i : Inputs) (response : TypedResponse) :
  statusCode response <> 200%Z ->
  handle (updateMapped i response)
  = [SetFailed (optOr (read_error (result response))
                      (failedWithStatus (statusCode response)))].
Proof.
  intros H. unfold updateMapped. apply Z.eqb_neq in H. rewrite H. reflexivity.
Qed.

Lemma updateMapped_build (i : Inputs) (response : TypedResponse) (b : BuildResponse) :
  statusCode response = 200%Z -> result response = ResultBuild b ->
  handle (updateMapped i response)
  = [ Info "Deployment status updated successfully";
      SetOutput "build-id" (VString (Response.buildId b));
      SetOutput "deployment-status"
        (valOr (index (deployments b) (environment i)) (status i)) ].
Proof.
  intros Hc Hr. unfold updateMapped. rewrite Hc, Hr. reflexivity.
Qed.

Lemma updateMapped_error_body (i : Inputs) (response : TypedResponse) (e : ErrorResponse) :
  statusCode response = 200%Z -> result response = ResultError e ->
  handle (updateMapped i response)
  = [ Info "Deployment status updated successfully";
      SetOutput "build-id" VUndefined;
      SetFailed ("Cannot read properties of undefined (reading '"
                 ++ environment i ++ "')") ].
Proof.
  intros Hc Hr. unfold updateMapped. rewrite Hc, Hr. reflexivity.
Qed.

Lemma updateMapped_null (i : Inputs) (response : TypedResponse) :
  statusCode response = 200%Z -> result response = ResultNull ->
  handle (updateMapped i response)
  = [ Info "Deployment status updated successfully";
      SetFailed "Cannot read properties of null (reading 'buildId')" ].
Proof.
  intros Hc Hr. unfold updateMapped. rewrite Hc, Hr. reflexivity.
Qed.

(** The same for [report-build]. *)
Lemma reportMapped_rejected (i : Inputs) (response : TypedResponse) :
  statusCode response <> 201%Z -> statusCode response <> 200%Z ->
  handle (reportMapped i response)
  = [SetFailed (optOr (read_error (result response))
                      (failedWithStatus (statusCode response)))].
Proof.
  intros H1 H0. unfold reportMapped.
  apply Z.eqb_neq in H1. apply Z.eqb_neq in H0. rewrite H1, H0. reflexivity.
Qed.

Lemma reportMapped_accepted (i : Inputs) (response : TypedResponse) :
  statusCode response = 201%Z \/ statusCode response = 200%Z ->
  handle (reportMapped i response)
  = Info ("Build " ++ buildId i ++ " reported successfully")
    :: match result response with
       | ResultBuild b =>
           [ SetOutput "build-id" (VString (Response.buildId b));
             SetOutput "deployment-status"
               (VString (stringifyRecord (deployments b))) ]
       | ResultError _ =>
           [ SetOutput "build-id" VUndefined;
             SetOutput "deployment-status" VUndefined ]
       | ResultNull =>
           [ SetFailed "Cannot read properties of null (reading 'buildId')" ]
       end.
Proof.
  intros H. unfold reportMapped.
  replace ((statusCode response =? 201)%Z || (statusCode response =? 200)%Z)
    with true
    by (symmetry; apply orb_true_iff; rewrite !Z.eqb_eq; exact H).
  destruct (result response); reflexivity.
Qed.

(** The mapping of a response sends nothing. *)
Lemma requests_updateMapped (i : Inputs) (response : TypedResponse) :
  requests (handle (updateMapped i response)) = [].
Proof.
  unfold updateMapped, rejected.
  destruct (statusCode response =? 200)%Z; [| reflexivity].
  destruct (result response); reflexivity.
Qed.

Lemma requests_reportMapped (i : Inputs) (response : TypedResponse) :
  requests (handle (reportMapped i response)) = [].
Proof.
  unfold reportMapped, rejected.
  destruct ((statusCode response =? 201)%Z || (statusCode response =? 200)%Z);
    [| reflexivity].
  destruct (result response); reflexivity.
Qed.

Section Dispatched.

Variable getInput : GetInput.
Variable remote : Remote.
Variable i : Inputs.
Hypothesis resolved : readInputs getInput = ret i.

(** [report-build]: the log line, the POST, then whatever the answer gives. *)
Lemma run_report :
  action i = "report-build" ->
  run getInput remote
  = Info ("Reporting build " ++ buildId i ++ " to GitLaunch...")
    :: Http (reportRequest i)
    :: match remote (reportRequest i) with
       | inl e => handle (throw e)
       | inr response => handle (reportMapped i response)
       end.
Proof.
  intros Ha.
  rewrite (run_resolved _ remote _ resolved), dispatch_report, reportBuild_eq
    by assumption.
  now rewrite !handle_emit, handle_call.
Qed.

(** [update-status] with accepted inputs: the log line, the PATCH, then
    whatever the answer gives. *)
Lemma run_update :
  action i = "update-status" ->
  environment i <> "" -> In (status i) validStatuses ->
  run getInput remote
  = Info ("Updating deployment status for build " ++ buildId i
          ++ " in " ++ environment i ++ " to " ++ status i ++ "...")
    :: Http (updateRequest i)
    :: match remote (updateRequest i) with
       | inl e => handle (throw e)
       | inr response => handle (updateMapped i response)
       end.
Proof.
  intros Ha He Hv.
  rewrite (run_resolved _ remote _ resolved), dispatch_update, updateStatus_valid
    by assumption.
  now rewrite !handle_emit, handle_call.
Qed.

Lemma requests_report :
  action i = "report-build" ->
  requests (run getInput remote) = [reportRequest i].
Proof.
  intros Ha. rewrite (run_report Ha). simpl. f_equal.
  destruct (remote (reportRequest i)) as [[m |] | response];
    [reflexivity | reflexivity | apply requests_reportMapped].
Qed.

Lemma requests_update :
  action i = "update-status" ->
  environment i <> "" -> In (status i) validStatuses ->
  requests (run getInput remote) = [updateRequest i].
Proof.
  intros Ha He Hv. rewrite (run_update Ha He Hv). simpl. f_equal.
  destruct (remote (updateRequest i)) as [[m |] | response];
    [reflexivity | reflexivity | apply requests_updateMapped].
Qed.

(** A response was received only on one of the two paths that send. *)
Lemma received_inv (response : TypedResponse) :
  received remote (run getInput remote) response ->
  (action i = "report-build" /\ remote (reportRequest i) = inr response)
  \/ (action i = "update-status" /\ environment i <> ""
      /\ In (status i) validStatuses
      /\ remote (updateRequest i) = inr response).
Proof.
  intros [req [Hin Hreq]].
  destruct (string_dec (action i) "report-build") as [Ha | Ha].
  { left. rewrite (requests_report Ha) in Hin.
    destruct Hin as [<- | []]. now split. }
  destruct (string_dec (action i) "update-status") as [Hu | Hu].
  2: { rewrite (run_invalid_action _ remote _ resolved Ha Hu) in Hin.
       destruct Hin. }
  right.
  destruct (string_dec (environment i) "") as [He | He].
  { rewrite (run_no_environment _ remote _ resolved Hu He) in Hin. destruct Hin. }
  destruct (string_dec (status i) "") as [Hs | Hs].
  { rewrite (run_no_status _ remote _ resolved Hu He Hs) in Hin. destruct Hin. }
  destruct (in_dec string_dec (status i) validStatuses) as [Hv | Hv].
  2: { rewrite (run_bad_status _ remote _ resolved Hu He Hs Hv) in Hin.
       destruct Hin. }
  rewrite (requests_update Hu He Hv) in Hin.
  destruct Hin as [<- | []]. now repeat split.
Qed.

End Dispatched.

(** C10. The checks of [update-status] run in the order environment present,
    status present, status in the enumeration; the run fails with the message
    of the first check that fails and sends nothing, and sends the request
    when none fails.  With both environment and status empty the message is
    the one about the environment. *)
Theorem validation_order (getInput : GetInput) (remote : Remote) (i : Inputs) :
  readInputs getInput = ret i ->
  action i = "update-status" ->
  (forall message,
      firstFailure (updateStatusChecks i) = Some message ->
      failures (run getInput remote) = [message]
      /\ requests (run getInput remote) = [])
  /\ (firstFailure (updateStatusChecks i) = None ->
      requests (run getInput remote) = [updateRequest i])
  /\ (environment i = "" -> status i = "" ->
      failures (run getInput remote)
        = ["environment is required for update-status action"]).
Proof.
  intros R Ha. unfold updateStatusChecks, firstFailure.
  destruct (String.eqb_spec (environment i) "") as [He | He]; simpl negb; cbv iota.
  { rewrite (run_no_environment _ remote _ R Ha He). repeat split.
    - now injection H as <-.
    - discriminate.
  }
  destruct (String.eqb_spec (status i) "") as [Hs | Hs]; simpl negb; cbv iota.
  { rewrite (run_no_status _ remote _ R Ha He Hs). repeat split.
    - now injection H as <-.
    - discriminate.
    - contradiction.
  }
  fold (includes ["deploying"; "deployed"; "error"; "cancelled"] (status i)).
  fold validStatuses.
  destruct (includes validStatuses (status i)) eqn:Hv.
  - apply includes_In in Hv. repeat split; try discriminate.
    + intros _. apply (requests_update _ remote _ R Ha He Hv).
    + contradiction.
  - apply includes_not_In in Hv.
    rewrite (run_bad_status _ remote _ R Ha He Hs Hv). repeat split.
    + now injection H as <-.
    + discriminate.
    + contradiction.
Qed.

Lemma validation_order_witness :
  failures (run (mockGetInput (Fixtures.table "update-status" "" "")) Fixtures.updated)
    = ["environment is required for update-status action"]
  /\ requests (run (mockGetInput (Fixtures.table "update-status" "staging" "deployed"))
                  Fixtures.updated)
     = [updateRequest (Fixtures.config "update-status" "staging" "deployed")].
Proof.
  split.
  - apply (proj2 (proj2 (validation_order
                           (mockGetInput (Fixtures.table "update-status" "" ""))
                           Fixtures.updated
                           (Fixtures.config "update-status" "" "")
                           eq_refl eq_refl)));
      reflexivity.
  - apply (proj1 (proj2 (validation_order
                           (mockGetInput (Fixtures.table "update-status" "staging" "deployed"))
                           Fixtures.updated
                           (Fixtures.config "update-status" "staging" "deployed")
                           eq_refl eq_refl))).
    reflexivity.
Defined.

(* ------------------------------------------------------------------ *)
(** ** Remote rejection *)

Lemma optOr_present (s fallback : string) :
  s <> "" -> optOr (Some s) fallback = s.
Proof.
  intros H. unfold optOr, strOr. apply truthy_string in H. now rewrite H.
Qed.

Lemma optOr_absent (r : Result) (fallback : string) :
  (forall e, r = ResultError e -> error e = "") ->
  optOr (read_error r) fallback = fallback.
Proof.
  intros H. destruct r as [b | e |]; simpl; try reflexivity.
  now rewrite (H e eq_refl).
Qed.

(** A response that is not accepted ends the run with one failure and no
    output, on either path. *)
Lemma run_rejected (getInput : GetInput) (remote : Remote) (i : Inputs)
    (response : TypedResponse) :
  readInputs getInput = ret i ->
  received remote (run getInput remote) response ->
  ~ In (statusCode response) (successCodes (action i)) ->
  failures (run getInput remote)
    = [optOr (read_error (result response))
             (failedWithStatus (statusCode response))]
  /\ outputs (run getInput remote) = [].
Proof.
  intros R Hrec Hcode.
  destruct (received_inv _ remote _ R _ Hrec)
    as [[Ha Hreq] | [Ha [He [Hv Hreq]]]].
  - unfold successCodes in Hcode. rewrite Ha in Hcode. simpl in Hcode.
    rewrite (run_report _ remote _ R Ha), Hreq, reportMapped_rejected
      by (intros E; apply Hcode; rewrite E; tauto).
    split; reflexivity.
  - unfold successCodes in Hcode. rewrite Ha in Hcode. simpl in Hcode.
    rewrite (run_update _ remote _ R Ha He Hv), Hreq, updateMapped_rejected
      by (intros E; apply Hcode; rewrite E; tauto).
    split; reflexivity.
Qed.

(** C7. When the status code of the response is not a success code of the
    action, the run fails with [body.error] if the body has a non-empty
    [error], and with "Failed with status {statusCode}" otherwise. *)
Theorem rejection_message (getInput : GetInput) (remote : Remote) (i : Inputs)
    (response : TypedResponse) :
  readInputs getInput = ret i ->
  received remote (run getInput remote) response ->
  ~ In (statusCode response) (successCodes (action i)) ->
  (forall e, result response = ResultError e -> error e <> "" ->
     failures (run getInput remote) = [error e])
  /\ ((forall e, result response = ResultError e -> error e = "") ->
     failures (run getInput remote)
       = ["Failed with status " ++ showInt (statusCode response)]).
Proof.
  intros R Hrec Hcode.
  destruct (run_rejected _ _ _ _ R Hrec Hcode) as [Hf _]. rewrite Hf. split.
  - intros e He Hne. rewrite He. simpl read_error. now rewrite optOr_present.
  - intros Habs. now rewrite optOr_absent.
Qed.

Lemma rejection_message_witness :
  failures (run (mockGetInput (Fixtures.table "report-build" "" ""))
                Fixtures.unauthorized)
    = ["Invalid API key"]
  /\ failures (run (mockGetInput (Fixtures.table "update-status" "staging" "deployed"))
                   (Fixtures.respond 503 ResultNull))
     = ["Failed with status 503"].
Proof.
  split.
  - apply (proj1 (rejection_message
                    (mockGetInput (Fixtures.table "report-build" "" ""))
                    Fixtures.unauthorized
                    (Fixtures.config "report-build" "" "")
                    {| statusCode := 401;
                       result := ResultError {| error := "Invalid API key" |} |}
                    eq_refl
                    (ex_intro _ (reportRequest (Fixtures.config "report-build" "" ""))
                       (conj (or_introl eq_refl) eq_refl))
                    ltac:(simpl; intros [H | [H | []]]; discriminate H))
             {| error := "Invalid API key" |} eq_refl).
    discriminate.
  - apply (proj2 (rejection_message
                    (mockGetInput (Fixtures.table "update-status" "staging" "deployed"))
                    (Fixtures.respond 503 ResultNull)
                    (Fixtures.config "update-status" "staging" "deployed")
                    {| statusCode := 503; result := ResultNull |}
                    eq_refl
                    (ex_intro _ (updateRequest
                                   (Fixtures.config "update-status" "staging" "deployed"))
                       (conj (or_introl eq_refl) eq_refl))
                    ltac:(simpl; intros [H | []]; discriminate H))).
    intros e H. discriminate H.
Defined.

(* ------------------------------------------------------------------ *)
(** ** [report-build] does not look at environment and status *)

Lemma same_reportRequest (i j : Inputs) :
  sameButEnvironmentAndStatus i j -> reportRequest i = reportRequest j.
Proof.
  intros (Hk & Hu & Hs & _ & Hb). unfold reportRequest, authHeaders.
  now rewrite Hk, Hu, Hs, Hb.
Qed.

Lemma same_reportMapped (i j : Inputs) (response : TypedResponse) :
  sameButEnvironmentAndStatus i j ->
  reportMapped i response = reportMapped j response.
Proof.
  intros (_ & _ & _ & _ & Hb). unfold reportMapped. now rewrite Hb.
Qed.

(** C9. Two [report-build] invocations whose configurations differ only in
    environment and status perform the same run against the same remote
    service: the same request, and for the same answer the same outputs and
    the same failure or success. *)
Theorem report_build_ignores_environment_and_status
    (getInput1 getInput2 : GetInput) (remote : Remote) (i j : Inputs) :
  readInputs getInput1 = ret i ->
  readInputs getInput2 = ret j ->
  action i = "report-build" ->
  sameButEnvironmentAndStatus i j ->
  run getInput1 remote = run getInput2 remote
  /\ requests (run getInput1 remote) = requests (run getInput2 remote)
  /\ outputs (run getInput1 remote) = outputs (run getInput2 remote)
  /\ failures (run getInput1 remote) = failures (run getInput2 remote).
Proof.
  intros Ri Rj Ha Hsame.
  assert (Haj : action j = "report-build")
    by (destruct Hsame as (_ & _ & _ & E & _); congruence).
  assert (E : run getInput1 remote = run getInput2 remote).
  { rewrite (run_report _ remote _ Ri Ha), (run_report _ remote _ Rj Haj).
    rewrite (same_reportRequest _ _ Hsame).
    destruct Hsame as (Hk & Hu & Hs & Hact & Hb). rewrite Hb.
    destruct (remote (reportRequest j)) as [e | response]; [reflexivity |].
    now rewrite (same_reportMapped i j response (conj Hk (conj Hu (conj Hs (conj Hact Hb))))). }
  rewrite E. repeat split.
Qed.

Lemma report_build_ignores_environment_and_status_witness :
  run (mockGetInput (Fixtures.table "report-build" "" "")) Fixtures.created
  = run (mockGetInput (Fixtures.table "report-build" "staging" "paused")) Fixtures.created
  /\ requests (run (mockGetInput (Fixtures.table "report-build" "" "")) Fixtures.created)
     = requests (run (mockGetInput (Fixtures.table "report-build" "staging" "paused"))
                     Fixtures.created)
  /\ outputs (run (mockGetInput (Fixtures.table "report-build" "" "")) Fixtures.created)
     = outputs (run (mockGetInput (Fixtures.table "report-build" "staging" "paused"))
                    Fixtures.created)
  /\ failures (run (mockGetInput (Fixtures.table "report-build" "" "")) Fixtures.created)
     = failures (run (mockGetInput (Fixtures.table "report-build" "staging" "paused"))
                     Fixtures.created).
Proof.
  apply (report_build_ignores_environment_and_status
           (mockGetInput (Fixtures.table "report-build" "" ""))
           (mockGetInput (Fixtures.table "report-build" "staging" "paused"))
           Fixtures.created
           (Fixtures.config "report-build" "" "")
           (Fixtures.config "report-build" "staging" "paused"));
    [reflexivity | reflexivity | reflexivity | repeat split].
Defined.

(* ------------------------------------------------------------------ *)
(** ** Which responses count as success *)

(** C2, counterexample. A 2xx code that is not a success code of the action
    is rejected: 202 on [report-build], with a well-formed build record as
    body, gives a failure and no output. *)
Lemma other_2xx_rejected :
  is2xx 202
  /\ failures (run (mockGetInput (Fixtures.table "report-build" "" ""))
                   (Fixtures.respond 202 (Fixtures.build [])))
     = ["Failed with status 202"]
  /\ outputs (run (mockGetInput (Fixtures.table "report-build" "" ""))
                  (Fixtures.respond 202 (Fixtures.build [])))
     = [].
Proof.
  split; [unfold is2xx; lia |]. split; reflexivity.
Qed.

(** C2, amended. A response is mapped to outputs exactly when its status code
    is a success code of the action (200 or 201 for [report-build], 200 for
    [update-status]): a build record received with such a code yields the two
    outputs and no failure.  Every other code, the other 2xx codes included,
    is read as an error: no output, and one failure whose message is the
    generic one whenever the body is missing or has no [error]. *)
Theorem response_classified (getInput : GetInput) (remote : Remote) (i : Inputs)
    (response : TypedResponse) :
  readInputs getInput = ret i ->
  received remote (run getInput remote) response ->
  (In (statusCode response) (successCodes (action i)) ->
   forall b, result response = ResultBuild b ->
     failures (run getInput remote) = []
     /\ exists v,
         outputs (run getInput remote)
         = [("build-id", VString (Response.buildId b)); ("deployment-status", v)])
  /\ (~ In (statusCode response) (successCodes (action i)) ->
      outputs (run getInput remote) = []
      /\ exists message,
          failures (run getInput remote) = [message]
          /\ (result response = ResultNull ->
              message = "Failed with status " ++ showInt (statusCode response))
          /\ (forall b, result response = ResultBuild b ->
              message = "Failed with status " ++ showInt (statusCode response))).
Proof.
  intros R Hrec. split.
  - intros Hcode b Hb.
    destruct (received_inv _ remote _ R _ Hrec)
      as [[Ha Hreq] | [Ha [He [Hv Hreq]]]];
      unfold successCodes in Hcode; rewrite Ha in Hcode; simpl in Hcode.
    + rewrite (run_report _ remote _ R Ha), Hreq, reportMapped_accepted, Hb
        by (destruct Hcode as [E | [E | []]]; rewrite <- E; tauto).
      split; [reflexivity | eexists; reflexivity].
    + rewrite (run_update _ remote _ R Ha He Hv), Hreq,
        (updateMapped_build _ _ b)
        by (try assumption; destruct Hcode as [E | []]; now rewrite <- E).
      split; [reflexivity | eexists; reflexivity].
  - intros Hcode.
    destruct (run_rejected _ _ _ _ R Hrec Hcode) as [Hf Ho].
    split; [exact Ho |]. eexists. split; [exact Hf |]. split.
    + intros Hn. rewrite Hn. reflexivity.
    + intros b Hb. rewrite Hb. reflexivity.
Qed.

Lemma response_classified_witness :
  (failures (run (mockGetInput (Fixtures.table "report-build" "" "")) Fixtures.created)
     = []
   /\ exists v,
       outputs (run (mockGetInput (Fixtures.table "report-build" "" "")) Fixtures.created)
       = [("build-id", VString "abc123"); ("deployment-status", v)])
  /\ outputs (run (mockGetInput (Fixtures.table "report-build" "" ""))
                  (Fixtures.respond 204 ResultNull))
     = [].
Proof.
  split.
  - apply (proj1 (response_classified
                    (mockGetInput (Fixtures.table "report-build" "" ""))
                    Fixtures.created
                    (Fixtures.config "report-build" "" "")
                    {| statusCode := 201; result := Fixtures.build [] |}
                    eq_refl
                    (ex_intro _ (reportRequest (Fixtures.config "report-build" "" ""))
                       (conj (or_introl eq_refl) eq_refl)))
             (or_intror (or_introl eq_refl)) _ eq_refl).
  - apply (proj2 (response_classified
                    (mockGetInput (Fixtures.table "report-build" "" ""))
                    (Fixtures.respond 204 ResultNull)
                    (Fixtures.config "report-build" "" "")
                    {| statusCode := 204; result := ResultNull |}
                    eq_refl
                    (ex_intro _ (reportRequest (Fixtures.config "report-build" "" ""))
                       (conj (or_introl eq_refl) eq_refl)))).
    simpl. intros [H | [H | []]]; discriminate H.
Defined.

(* ------------------------------------------------------------------ *)
(** ** [update-status]: the request and the outputs *)

Lemma valOr_index (d : StringRecord) (k fallback : string) :
  (forall s, own d k = Some s -> s <> "" ->
     valOr (index d k) fallback = VString s)
  /\ (own d k = Some "" -> valOr (index d k) fallback = VString fallback)
  /\ (own d k = None -> inherited k = false ->
      valOr (index d k) fallback = VString fallback)
  /\ (own d k = None -> inherited k = true ->
      valOr (index d k) fallback = VNative k).
Proof.
  unfold valOr, index. repeat split.
  - intros s Hs Hne. rewrite Hs. apply truthy_string in Hne. now rewrite Hne.
  - intros Hs. now rewrite Hs.
  - intros Hs Hi. now rewrite Hs, Hi.
  - intros Hs Hi. now rewrite Hs, Hi.
Qed.

(** C1, counterexample. An entry that is present but empty is not reported:
    the key "staging" is in [body.deployments], yet the output is the status
    that was sent. *)
Lemma empty_entry_falls_back :
  own [("staging", "")] "staging" = Some ""
  /\ outputs (run (mockGetInput (Fixtures.table "update-status" "staging" "deployed"))
                  (Fixtures.respond 200 (Fixtures.build [("staging", "")])))
     = [("build-id", VString "abc123"); ("deployment-status", VString "deployed")].
Proof.
  split; reflexivity.
Qed.

(** C1, amended. An [update-status] invocation that passes validation sends
    one PATCH to
    [{apiUrl}/api/v1/services/{serviceId}/builds/{buildId}/deploy/{environment}]
    with body [{ status }].  It fails, without outputs, whenever the status
    code is not 200.  With status code 200 and a build record as body it
    succeeds, with output build-id equal to [body.buildId] and output
    deployment-status equal to [body.deployments[environment]] when that
    entry is present and not empty, and to the status that was sent when the
    entry is empty, or absent for an environment that is not the name of a
    member every object inherits. *)
Theorem update_status_mapped (getInput : GetInput) (remote : Remote) (i : Inputs) :
  readInputs getInput = ret i ->
  action i = "update-status" ->
  environment i <> "" ->
  In (status i) ["deploying"; "deployed"; "error"; "cancelled"] ->
  requests (run getInput remote)
  = [ {| verb := PATCH;
         url := apiUrl i ++ "/api/v1/services/" ++ serviceId i ++ "/builds/"
                ++ buildId i ++ "/deploy/" ++ environment i;
         headers := [ ("Authorization", "Bearer " ++ apiKey i);
                      ("Content-Type", "application/json") ];
         payload := [("status", status i)] |} ]
  /\ forall response,
      remote (updateRequest i) = inr response ->
      (statusCode response <> 200%Z ->
         failures (run getInput remote) <> []
         /\ outputs (run getInput remote) = [])
      /\ (statusCode response = 200%Z ->
          forall b, result response = ResultBuild b ->
            failures (run getInput remote) = []
            /\ exists v,
                outputs (run getInput remote)
                = [ ("build-id", VString (Response.buildId b));
                    ("deployment-status", v) ]
                /\ (forall s, own (deployments b) (environment i) = Some s ->
                      s <> "" -> v = VString s)
                /\ (own (deployments b) (environment i) = Some "" ->
                    v = VString (status i))
                /\ (own (deployments b) (environment i) = None ->
                    inherited (environment i) = false ->
                    v = VString (status i))).
Proof.
  intros R Ha He Hv. split.
  - apply (requests_update _ remote _ R Ha He Hv).
  - intros response Hreq.
    rewrite (run_update _ remote _ R Ha He Hv), Hreq. split.
    + intros Hc. rewrite updateMapped_rejected by assumption.
      split; [discriminate | reflexivity].
    + intros Hc b Hb. rewrite (updateMapped_build _ _ b) by assumption.
      split; [reflexivity |].
      exists (valOr (index (deployments b) (environment i)) (status i)).
      split; [reflexivity |].
      destruct (valOr_index (deployments b) (environment i) (status i))
        as (Hpresent & Hempty & Habsent & _).
      repeat split; assumption.
Qed.

Lemma update_status_mapped_witness :
  requests (run (mockGetInput (Fixtures.table "update-status" "staging" "deployed"))
                Fixtures.updated)
  = [ {| verb := PATCH;
         url := "https://gitlaunch.io/api/v1/services/service123/builds/abc123/deploy/staging";
         headers := [ ("Authorization", "Bearer pk_test_key");
                      ("Content-Type", "application/json") ];
         payload := [("status", "deployed")] |} ]
  /\ failures (run (mockGetInput (Fixtures.table "update-status" "staging" "deployed"))
                   Fixtures.updated)
     = [].
Proof.
  pose (T := update_status_mapped
               (mockGetInput (Fixtures.table "update-status" "staging" "deployed"))
               Fixtures.updated
               (Fixtures.config "update-status" "staging" "deployed")
               eq_refl eq_refl
               ltac:(discriminate)
               (or_intror (or_introl eq_refl))).
  split.
  - exact (proj1 T).
  - exact (proj1 (proj2 (proj2 T _ eq_refl) eq_refl _ eq_refl)).
Defined.

(** The success case of the test suite. *)
Example update_status_round_trip :
  run (mockGetInput (Fixtures.table "update-status" "staging" "deployed"))
      Fixtures.updated
  = [ Info "Updating deployment status for build abc123 in staging to deployed...";
      Http (updateRequest (Fixtures.config "update-status" "staging" "deployed"));
      Info "Deployment status updated successfully";
      SetOutput "build-id" (VString "abc123");
      SetOutput "deployment-status" (VString "deployed") ].
Proof. reflexivity. Qed.

(* ------------------------------------------------------------------ *)
(** ** [report-build]: the request and the outputs *)

(** X14. A [report-build] invocation sends one POST to
    [{apiUrl}/api/v1/services/{serviceId}/builds] with body [{ buildId }],
    whatever environment and status are.  It fails, without outputs, whenever
    the status code is neither 200 nor 201; with one of these codes and a
    build record as body it succeeds with build-id equal to [body.buildId] and
    deployment-status equal to the JSON text of [body.deployments]. *)
Lemma report_build_mapped (getInput : GetInput) (remote : Remote) (i : Inputs) :
  readInputs getInput = ret i ->
  action i = "report-build" ->
  requests (run getInput remote)
  = [ {| verb := POST;
         url := apiUrl i ++ "/api/v1/services/" ++ serviceId i ++ "/builds";
         headers := [ ("Authorization", "Bearer " ++ apiKey i);
                      ("Content-Type", "application/json") ];
         payload := [("buildId", buildId i)] |} ]
  /\ forall response,
      remote (reportRequest i) = inr response ->
      (statusCode response <> 200%Z -> statusCode response <> 201%Z ->
         failures (run getInput remote) <> []
         /\ outputs (run getInput remote) = [])
      /\ (statusCode response = 200%Z \/ statusCode response = 201%Z ->
          forall b, result response = ResultBuild b ->
            failures (run getInput remote) = []
            /\ outputs (run getInput remote)
               = [ ("build-id", VString (Response.buildId b));
                   ("deployment-status",
                    VString (stringifyRecord (deployments b))) ]).
Proof.
  intros R Ha. split.
  - apply (requests_report _ remote _ R Ha).
  - intros response Hreq. rewrite (run_report _ remote _ R Ha), Hreq. split.
    + intros H0 H1. rewrite reportMapped_rejected by assumption.
      split; [discriminate | reflexivity].
    + intros Hc b Hb. rewrite reportMapped_accepted, Hb by tauto.
      split; reflexivity.
Qed.

(** The two cases of the test suite. *)
Example report_build_round_trip :
  run (mockGetInput (Fixtures.table "report-build" "" "")) Fixtures.created
  = [ Info "Reporting build abc123 to GitLaunch...";
      Http (reportRequest (Fixtures.config "report-build" "" ""));
      Info "Build abc123 reported successfully";
      SetOutput "build-id" (VString "abc123");
      SetOutput "deployment-status" (VString "{}") ].
Proof. reflexivity. Qed.

Example report_build_unauthorized :
  run (mockGetInput (Fixtures.table "report-build" "" "")) Fixtures.unauthorized
  = [ Info "Reporting build abc123 to GitLaunch...";
      Http (reportRequest (Fixtures.config "report-build" "" ""));
      SetFailed "Invalid API key" ].
Proof. reflexivity. Qed.

(** C3. The status code alone does not decide success: a 201 response without
    a body makes the read of [result.buildId] throw, and the run, which has
    sent the POST, reports a failure. *)
Theorem report_build_created_without_body :
  In 201%Z (successCodes "report-build")
  /\ requests (run (mockGetInput (Fixtures.table "report-build" "" ""))
                   (Fixtures.respond 201 ResultNull))
     = [reportRequest (Fixtures.config "report-build" "" "")]
  /\ failures (run (mockGetInput (Fixtures.table "report-build" "" ""))
                   (Fixtures.respond 201 ResultNull))
     = ["Cannot read properties of null (reading 'buildId')"]
  /\ outputs (run (mockGetInput (Fixtures.table "report-build" "" ""))
                  (Fixtures.respond 201 ResultNull))
     = [].
Proof.
  split; [simpl; tauto |]. repeat split.
Qed.

(* ------------------------------------------------------------------ *)
(** ** Failure is terminal *)

Lemma failures_app (t u : Trace) :
  failures (t ++ u)%list = (failures t ++ failures u)%list.
Proof.
  induction t as [| [m | r | n v | m] t IH]; simpl;
    [reflexivity | assumption | assumption | assumption | now rewrite IH].
Qed.

Lemma quiet_bind {A B} (m : Eff A) (k : A -> Eff B) :
  quiet m -> (forall a, quiet (k a)) -> quiet (bind m k).
Proof.
  unfold quiet. intros Hm Hk. destruct m as [t [e | a]]; simpl in *.
  - assumption.
  - specialize (Hk a). destruct (k a) as [t' r]. simpl in *.
    now rewrite failures_app, Hm, Hk.
Qed.

Lemma quiet_call {A} (r : Thrown + A) : quiet (call r).
Proof. reflexivity. Qed.

Lemma quiet_throw {A} (e : Thrown) : quiet (@throw A e).
Proof. reflexivity. Qed.

Lemma quiet_ret {A} (a : A) : quiet (ret a).
Proof. reflexivity. Qed.

Ltac quiet_steps :=
  repeat first
    [ apply quiet_bind; [| intros ?]
    | apply quiet_call | apply quiet_throw | apply quiet_ret
    | reflexivity
    | match goal with |- quiet (if ?c then _ else _) => destruct c end ].

Lemma quiet_attempt (getInput : GetInput) (remote : Remote) :
  quiet (attempt getInput remote).
Proof.
  unfold attempt, readInputs, dispatch, reportBuild, updateStatus, reportMapped,
    updateMapped, rejected, postJson, patchJson, sendJson.
  quiet_steps.
Qed.

(** X12. The run reports at most one failure, and nothing happens after it:
    no log line, no request and no output follows the report. *)
Lemma failure_is_final (getInput : GetInput) (remote : Remote) :
  failures (run getInput remote) = []
  \/ exists t message,
      run getInput remote = (t ++ [SetFailed message])%list
      /\ failures t = [] /\ failures (run getInput remote) = [message].
Proof.
  unfold run. pose proof (quiet_attempt getInput remote) as Hq.
  unfold quiet in Hq. destruct (attempt getInput remote) as [t [[m |] | []]];
    simpl in *.
  - right. exists t, m. now rewrite failures_app, Hq.
  - right. exists t, "An unexpected error occurred".
    now rewrite failures_app, Hq.
  - now left.
Qed.

Lemma readInputs_cases (getInput : GetInput) :
  (exists e, readInputs getInput = throw e)
  \/ (exists i, readInputs getInput = ret i).
Proof.
  unfold readInputs, bind, call, ret, throw.
  repeat match goal with
         | |- context [getInput ?n ?b] =>
             destruct (getInput n b); [left; eexists; reflexivity |]
         end.
  right. eexists. reflexivity.
Qed.

(** X13. A run that fails has set no output, except on one path:
    [update-status] with accepted inputs, answered with 200 and a body that
    is neither missing nor a build record, where build-id is set before the
    read of the deployments throws; deployment-status is not set. *)
Lemma outputs_before_failure (getInput : GetInput) (remote : Remote) :
  failures (run getInput remote) <> [] ->
  outputs (run getInput remote) <> [] ->
  exists i response,
    readInputs getInput = ret i
    /\ action i = "update-status"
    /\ environment i <> ""
    /\ In (status i) ["deploying"; "deployed"; "error"; "cancelled"]
    /\ remote (updateRequest i) = inr response
    /\ statusCode response = 200%Z
    /\ result response <> ResultNull
    /\ (forall b, result response <> ResultBuild b)
    /\ map fst (outputs (run getInput remote)) = ["build-id"].
Proof.
  intros Hf Ho.
  destruct (readInputs_cases getInput) as [[e R] | [i R]].
  { rewrite (run_unresolved _ remote _ R) in Ho. destruct e; now elim Ho. }
  destruct (string_dec (action i) "report-build") as [Ha | Ha].
  { exfalso. rewrite (run_report _ remote _ R Ha) in Hf, Ho.
    destruct (remote (reportRequest i)) as [[m |] | response];
      [now elim Ho | now elim Ho |].
    destruct (Z.eq_dec (statusCode response) 201) as [H1 | H1];
      [| destruct (Z.eq_dec (statusCode response) 200) as [H0 | H0]].
    - rewrite reportMapped_accepted in Hf, Ho by tauto.
      destruct (result response); [now elim Hf | now elim Hf | now elim Ho].
    - rewrite reportMapped_accepted in Hf, Ho by tauto.
      destruct (result response); [now elim Hf | now elim Hf | now elim Ho].
    - rewrite reportMapped_rejected in Ho by assumption. now elim Ho. }
  destruct (string_dec (action i) "update-status") as [Hu | Hu].
  2: { rewrite (run_invalid_action _ remote _ R Ha Hu) in Ho. now elim Ho. }
  destruct (string_dec (environment i) "") as [He | He].
  { rewrite (run_no_environment _ remote _ R Hu He) in Ho. now elim Ho. }
  destruct (string_dec (status i) "") as [Hs | Hs].
  { rewrite (run_no_status _ remote _ R Hu He Hs) in Ho. now elim Ho. }
  destruct (in_dec string_dec (status i) validStatuses) as [Hv | Hv].
  2: { rewrite (run_bad_status _ remote _ R Hu He Hs Hv) in Ho. now elim Ho. }
  rewrite (run_update _ remote _ R Hu He Hv) in Hf, Ho |- *.
  destruct (remote (updateRequest i)) as [[m |] | response] eqn:Hreq;
    [now elim Ho | now elim Ho |].
  destruct (Z.eq_dec (statusCode response) 200) as [H0 | H0].
  2: { rewrite updateMapped_rejected in Ho by assumption. now elim Ho. }
  destruct (result response) as [b | e |] eqn:Hr.
  - rewrite (updateMapped_build _ _ b) in Hf by assumption. now elim Hf.
  - exists i, response. rewrite (updateMapped_error_body _ _ e) by assumption.
    rewrite Hr. repeat split; try assumption; discriminate.
  - rewrite updateMapped_null in Ho by assumption. now elim Ho.
Qed.

(** C8. A failing run can leave an output behind: [update-status] answered
    with 200 and an error body sets build-id, then throws on the read of the
    deployments and reports the failure. *)
Theorem update_status_output_before_failure :
  failures (run (mockGetInput (Fixtures.table "update-status" "staging" "deployed"))
                (Fixtures.respond 200 (ResultError {| error := "build not found" |})))
  = ["Cannot read properties of undefined (reading 'staging')"]
  /\ outputs (run (mockGetInput (Fixtures.table "update-status" "staging" "deployed"))
                  (Fixtures.respond 200 (ResultError {| error := "build not found" |})))
     = [("build-id", VUndefined)].
Proof.
  split; reflexivity.
Qed.

(* ------------------------------------------------------------------ *)
(** ** Every run follows one of the paths *)

Lemma handle_throw (e : Thrown) :
  handle (throw e) = [SetFailed (thrownMessage e)].
Proof. destruct e; reflexivity. Qed.

Lemma run_path (getInput : GetInput) (remote : Remote) :
  Path getInput remote (run getInput remote).
Proof.
  destruct (readInputs_cases getInput) as [[e R] | [i R]].
  { rewrite (run_unresolved _ remote _ R), handle_throw.
    now apply PathUnresolved. }
  destruct (string_dec (action i) "report-build") as [Ha | Ha].
  { rewrite (run_report _ remote _ R Ha).
    destruct (remote (reportRequest i)) as [e | response] eqn:Hreq.
    { rewrite handle_throw. now apply (PathReportThrown _ _ i). }
    destruct (Z.eq_dec (statusCode response) 200) as [H0 | H0];
      [| destruct (Z.eq_dec (statusCode response) 201) as [H1 | H1]].
    3: { rewrite reportMapped_rejected by assumption.
         now apply (PathReportRejected _ _ i response). }
    all: rewrite reportMapped_accepted by tauto;
      destruct (result response) as [b | e |] eqn:Hr;
      [ apply (PathReportBuild _ _ i response b)
      | apply (PathReportErrorBody _ _ i response e)
      | apply (PathReportNoBody _ _ i response) ]; tauto. }
  destruct (string_dec (action i) "update-status") as [Hu | Hu].
  2: { rewrite (run_invalid_action _ remote _ R Ha Hu).
       now apply (PathInvalidAction _ _ i). }
  destruct (string_dec (environment i) "") as [He | He].
  { rewrite (run_no_environment _ remote _ R Hu He).
    now apply (PathNoEnvironment _ _ i). }
  destruct (string_dec (status i) "") as [Hs | Hs].
  { rewrite (run_no_status _ remote _ R Hu He Hs). now apply (PathNoStatus _ _ i). }
  destruct (in_dec string_dec (status i) validStatuses) as [Hv | Hv].
  2: { rewrite (run_bad_status _ remote _ R Hu He Hs Hv).
       now apply (PathBadStatus _ _ i). }
  rewrite (run_update _ remote _ R Hu He Hv).
  destruct (remote (updateRequest i)) as [e | response] eqn:Hreq.
  { rewrite handle_throw. now apply (PathUpdateThrown _ _ i). }
  destruct (Z.eq_dec (statusCode response) 200) as [H0 | H0].
  2: { rewrite updateMapped_rejected by assumption.
       now apply (PathUpdateRejected _ _ i response). }
  destruct (result response) as [b | e |] eqn:Hr.
  - rewrite (updateMapped_build _ _ b) by assumption.
    now apply (PathUpdateBuild _ _ i response b).
  - rewrite (updateMapped_error_body _ _ e) by assumption.
    now apply (PathUpdateErrorBody _ _ i response e).
  - rewrite updateMapped_null by assumption.
    now apply (PathUpdateNoBody _ _ i response).
Qed.

(* ------------------------------------------------------------------ *)
(** ** Reading the inputs *)

Lemma readAll_first_failure (getInput : GetInput) (pre post : list (string * bool))
    (name : string) (required : bool) (e : Thrown) :
  (forall p, In p pre -> exists v, getInput (fst p) (snd p) = inr v) ->
  getInput name required = inl e ->
  readAll getInput (pre ++ (name, required) :: post) = inl e.
Proof.
  intros Hpre He. induction pre as [| [n r] pre IH]; simpl.
  - now rewrite He.
  - destruct (Hpre (n, r) (or_introl eq_refl)) as [v Hv]. simpl in Hv.
    rewrite Hv, IH; [reflexivity |].
    intros p Hp. apply Hpre. now right.
Qed.

(** [readInputs] is the seven reads of [inputReads], in that order. *)
Lemma readInputs_readAll (getInput : GetInput) :
  readInputs getInput
  = match readAll getInput inputReads with
    | inl e => throw e
    | inr [k; u; s; a; b; en; st] =>
        ret {| apiKey := k; apiUrl := strOr u "https://gitlaunch.dev";
               serviceId := s; action := a; buildId := b;
               environment := en; status := st |}
    | inr _ => throw NonError
    end.
Proof.
  unfold readInputs, inputReads, readAll, bind, call, ret, throw.
  repeat match goal with
         | |- context [getInput ?n ?b] =>
             destruct (getInput n b); [reflexivity |]
         end.
  reflexivity.
Qed.

Lemma readInputs_ret_inv (getInput : GetInput) (i : Inputs) :
  readInputs getInput = ret i ->
  getInput "api-key" true = inr (apiKey i)
  /\ (exists u, getInput "api-url" false = inr u
                /\ apiUrl i = strOr u "https://gitlaunch.dev")
  /\ getInput "service-id" true = inr (serviceId i)
  /\ getInput "action" true = inr (action i)
  /\ getInput "build-id" true = inr (buildId i)
  /\ getInput "environment" false = inr (environment i)
  /\ getInput "status" false = inr (status i).
Proof.
  unfold readInputs, bind, call, ret.
  repeat match goal with
         | |- context [getInput ?n ?b] =>
             destruct (getInput n b); [discriminate |]
         end.
  intros H. injection H as <-. simpl. repeat split. eexists. now split.
Qed.

(** X1. The inputs are read in the order api-key, api-url, service-id,
    action, build-id, environment, status, and the first read that throws
    ends the run: the thrown message is reported (or the generic message for
    a value that is no [Error]), nothing is logged, sent or set.  In
    particular [environment] and [status] are read, and can fail the run, for
    [report-build] too. *)
Theorem first_failing_read (getInput : GetInput) (remote : Remote)
    (pre post : list (string * bool)) (name : string) (required : bool)
    (e : Thrown) :
  inputReads = (pre ++ (name, required) :: post)%list ->
  (forall p, In p pre -> exists v, getInput (fst p) (snd p) = inr v) ->
  getInput name required = inl e ->
  run getInput remote
  = [SetFailed match e with
               | ErrorObject message => message
               | NonError => "An unexpected error occurred"
               end].
Proof.
  intros Hsplit Hpre He.
  assert (R : readInputs getInput = throw e).
  { rewrite readInputs_readAll, Hsplit.
    now rewrite (readAll_first_failure _ pre post name required e Hpre He). }
  rewrite (run_unresolved _ remote _ R). destruct e; reflexivity.
Qed.

Lemma first_failing_read_witness :
  run (strictGetInput [("api-key", "pk_test_key"); ("action", "report-build")])
      Fixtures.created
  = [SetFailed "Input required and not supplied: service-id"].
Proof.
  apply (first_failing_read
           (strictGetInput [("api-key", "pk_test_key"); ("action", "report-build")])
           Fixtures.created
           [("api-key", true); ("api-url", false)]
           [("action", true); ("build-id", true); ("environment", false);
            ("status", false)]
           "service-id" true
           (ErrorObject "Input required and not supplied: service-id")).
  - reflexivity.
  - intros p [<- | [<- | []]]; eexists; reflexivity.
  - reflexivity.
Defined.

(* ------------------------------------------------------------------ *)
(** ** What is sent *)

(** A request that was sent is the one of the action, and the only one. *)
Lemma requests_inv (getInput : GetInput) (remote : Remote) (req : HttpRequest) :
  In req (requests (run getInput remote)) ->
  exists i,
    readInputs getInput = ret i
    /\ requests (run getInput remote) = [req]
    /\ ((action i = "report-build" /\ req = reportRequest i)
        \/ (action i = "update-status" /\ req = updateRequest i
            /\ environment i <> "" /\ In (status i) validStatuses)).
Proof.
  destruct (run_path getInput remote); simpl; intros Hin;
    try contradiction; destruct Hin as [<- | []]; exists i;
    (split; [assumption |]); (split; [reflexivity |]); tauto.
Qed.

(** X2. A run sends at most one request. *)
Theorem at_most_one_request (getInput : GetInput) (remote : Remote) :
  (length (requests (run getInput remote)) <= 1)%nat.
Proof.
  destruct (run_path getInput remote); simpl; lia.
Qed.

(** X3. Validation comes before the network: a PATCH that was sent carries a
    status out of deploying, deployed, error, cancelled, as body [{ status }],
    and targets a non-empty environment; a POST carries [{ buildId }].  No
    other request is ever sent. *)
Theorem request_validated (getInput : GetInput) (remote : Remote) (req : HttpRequest) :
  In req (requests (run getInput remote)) ->
  exists i,
    readInputs getInput = ret i
    /\ ((action i = "report-build" /\ verb req = POST
         /\ url req = apiUrl i ++ "/api/v1/services/" ++ serviceId i ++ "/builds"
         /\ payload req = [("buildId", buildId i)])
        \/ (action i = "update-status" /\ verb req = PATCH
            /\ url req = apiUrl i ++ "/api/v1/services/" ++ serviceId i
                         ++ "/builds/" ++ buildId i ++ "/deploy/" ++ environment i
            /\ payload req = [("status", status i)]
            /\ environment i <> ""
            /\ In (status i) ["deploying"; "deployed"; "error"; "cancelled"])).
Proof.
  intros Hin. destruct (requests_inv _ _ _ Hin) as (i & R & _ & H).
  exists i. split; [assumption |].
  destruct H as [[Ha ->] | (Ha & -> & He & Hv)]; [left | right];
    repeat split; assumption.
Qed.

Lemma request_validated_witness :
  exists i,
    readInputs (mockGetInput (Fixtures.table "update-status" "staging" "deployed"))
    = ret i
    /\ ((action i = "report-build" /\ verb (updateRequest (Fixtures.config "update-status" "staging" "deployed")) = POST
         /\ url (updateRequest (Fixtures.config "update-status" "staging" "deployed"))
            = apiUrl i ++ "/api/v1/services/" ++ serviceId i ++ "/builds"
         /\ payload (updateRequest (Fixtures.config "update-status" "staging" "deployed"))
            = [("buildId", buildId i)])
        \/ (action i = "update-status"
            /\ verb (updateRequest (Fixtures.config "update-status" "staging" "deployed")) = PATCH
            /\ url (updateRequest (Fixtures.config "update-status" "staging" "deployed"))
               = apiUrl i ++ "/api/v1/services/" ++ serviceId i
                 ++ "/builds/" ++ buildId i ++ "/deploy/" ++ environment i
            /\ payload (updateRequest (Fixtures.config "update-status" "staging" "deployed"))
               = [("status", status i)]
            /\ environment i <> ""
            /\ In (status i) ["deploying"; "deployed"; "error"; "cancelled"])).
Proof.
  apply (request_validated
           (mockGetInput (Fixtures.table "update-status" "staging" "deployed"))
           Fixtures.updated
           (updateRequest (Fixtures.config "update-status" "staging" "deployed"))).
  simpl. left. reflexivity.
Defined.

(** X4. Every request goes to the base URL read from [api-url], or to
    https://gitlaunch.dev when that input is empty, under
    [/api/v1/services/{service-id}], and carries the headers
    [Authorization: Bearer {api-key}] and [Content-Type: application/json]. *)
Theorem request_target (getInput : GetInput) (remote : Remote) (req : HttpRequest) :
  In req (requests (run getInput remote)) ->
  exists key base service rest,
    getInput "api-key" true = inr key
    /\ getInput "api-url" false = inr base
    /\ getInput "service-id" true = inr service
    /\ headers req = [ ("Authorization", "Bearer " ++ key);
                       ("Content-Type", "application/json") ]
    /\ url req = (if base =? "" then "https://gitlaunch.dev" else base)
                 ++ "/api/v1/services/" ++ service ++ rest.
Proof.
  intros Hin. destruct (requests_inv _ _ _ Hin) as (i & R & _ & H).
  destruct (readInputs_ret_inv _ _ R) as (Hk & (u & Hu & Hbase) & Hs & _).
  assert (Hb : apiUrl i = if u =? "" then "https://gitlaunch.dev" else u).
  { rewrite Hbase. unfold strOr. simpl. now destruct (u =? ""). }
  destruct H as [[_ ->] | (_ & -> & _)].
  - exists (apiKey i), u, (serviceId i), "/builds".
    repeat split; try assumption. simpl. now rewrite Hb.
  - exists (apiKey i), u, (serviceId i),
      ("/builds/" ++ buildId i ++ "/deploy/" ++ environment i).
    repeat split; try assumption. simpl. now rewrite Hb.
Qed.

Lemma request_target_witness :
  exists key base service rest,
    mockGetInput [("api-key", "pk_test_key"); ("service-id", "service123");
                  ("action", "report-build"); ("build-id", "abc123")]
      "api-key" true = inr key
    /\ mockGetInput [("api-key", "pk_test_key"); ("service-id", "service123");
                     ("action", "report-build"); ("build-id", "abc123")]
         "api-url" false = inr base
    /\ mockGetInput [("api-key", "pk_test_key"); ("service-id", "service123");
                     ("action", "report-build"); ("build-id", "abc123")]
         "service-id" true = inr service
    /\ headers {| verb := POST;
                  url := "https://gitlaunch.dev/api/v1/services/service123/builds";
                  headers := [ ("Authorization", "Bearer pk_test_key");
                               ("Content-Type", "application/json") ];
                  payload := [("buildId", "abc123")] |}
       = [ ("Authorization", "Bearer " ++ key);
           ("Content-Type", "application/json") ]
    /\ url {| verb := POST;
              url := "https://gitlaunch.dev/api/v1/services/service123/builds";
              headers := [ ("Authorization", "Bearer pk_test_key");
                           ("Content-Type", "application/json") ];
              payload := [("buildId", "abc123")] |}
       = (if base =? "" then "https://gitlaunch.dev" else base)
         ++ "/api/v1/services/" ++ service ++ rest.
Proof.
  apply (request_target
           (mockGetInput [("api-key", "pk_test_key"); ("service-id", "service123");
                          ("action", "report-build"); ("build-id", "abc123")])
           Fixtures.created).
  simpl. left. reflexivity.
Defined.

(** X5. A run that sends nothing does nothing else either: it consists of
    the one report of its failure. *)
Theorem no_request_no_effect (getInput : GetInput) (remote : Remote) :
  requests (run getInput remote) = [] ->
  exists message, run getInput remote = [SetFailed message].
Proof.
  destruct (run_path getInput remote); simpl; intros Hnone;
    try discriminate Hnone; eexists; reflexivity.
Qed.

Lemma no_request_no_effect_witness :
  exists message,
    run (mockGetInput (Fixtures.table "deploy" "" "")) Fixtures.created
    = [SetFailed message].
Proof.
  apply (no_request_no_effect
           (mockGetInput (Fixtures.table "deploy" "" "")) Fixtures.created).
  reflexivity.
Defined.

(* ------------------------------------------------------------------ *)
(** ** When the call itself fails *)

(** X6. A call that throws (the service cannot be reached) fails the run
    with the thrown message, or with "An unexpected error occurred" when the
    thrown value is no [Error]; the request was sent, no output is set. *)
Theorem transport_failure (getInput : GetInput) (remote : Remote) (i : Inputs)
    (req : HttpRequest) (e : Thrown) :
  readInputs getInput = ret i ->
  In req (requests (run getInput remote)) ->
  remote req = inl e ->
  failures (run getInput remote)
    = [match e with
       | ErrorObject message => message
       | NonError => "An unexpected error occurred"
       end]
  /\ outputs (run getInput remote) = []
  /\ requests (run getInput remote) = [req].
Proof.
  intros R Hin He.
  destruct (requests_inv _ _ _ Hin) as (j & Rj & Hone & H).
  assert (j = i) as -> by (rewrite R in Rj; now injection Rj).
  split; [| split; [| exact Hone]];
    destruct H as [[Ha ->] | (Ha & -> & Henv & Hv)].
  - rewrite (run_report _ remote _ R Ha), He, handle_throw. now destruct e.
  - rewrite (run_update _ remote _ R Ha Henv Hv), He, handle_throw.
    now destruct e.
  - rewrite (run_report _ remote _ R Ha), He, handle_throw. reflexivity.
  - rewrite (run_update _ remote _ R Ha Henv Hv), He, handle_throw.
    reflexivity.
Qed.

Lemma transport_failure_witness :
  failures (run (mockGetInput (Fixtures.table "report-build" "" ""))
                (unreachable (ErrorObject "connect ECONNREFUSED 127.0.0.1:443")))
    = ["connect ECONNREFUSED 127.0.0.1:443"]
  /\ outputs (run (mockGetInput (Fixtures.table "report-build" "" ""))
                  (unreachable (ErrorObject "connect ECONNREFUSED 127.0.0.1:443")))
     = []
  /\ requests (run (mockGetInput (Fixtures.table "report-build" "" ""))
                   (unreachable (ErrorObject "connect ECONNREFUSED 127.0.0.1:443")))
     = [reportRequest (Fixtures.config "report-build" "" "")].
Proof.
  apply (transport_failure
           (mockGetInput (Fixtures.table "report-build" "" ""))
           (unreachable (ErrorObject "connect ECONNREFUSED 127.0.0.1:443"))
           (Fixtures.config "report-build" "" "")
           (reportRequest (Fixtures.config "report-build" "" ""))
           (ErrorObject "connect ECONNREFUSED 127.0.0.1:443")).
  - reflexivity.
  - simpl. left. reflexivity.
  - reflexivity.
Defined.

(* ------------------------------------------------------------------ *)
(** ** What a success looks like *)

(** X7. A run that reports no failure has read its inputs, sent exactly one
    request, received a response with a success code of the action and a
    body, and set exactly the two outputs build-id and deployment-status, in
    that order. *)
Theorem success_inv (getInput : GetInput) (remote : Remote) :
  failures (run getInput remote) = [] ->
  exists i req response,
    readInputs getInput = ret i
    /\ requests (run getInput remote) = [req]
    /\ remote req = inr response
    /\ In (statusCode response) (successCodes (action i))
    /\ result response <> ResultNull
    /\ map fst (outputs (run getInput remote))
       = ["build-id"; "deployment-status"].
Proof.
  destruct (run_path getInput remote)
    as [ | | | | | | | i response b R Ha Hreq Hc Hr
         | i response e R Ha Hreq Hc Hr | | | | i response b R Ha He Hv Hreq Hc Hr
         | | ];
    simpl; intros Hnone; try discriminate Hnone.
  - exists i, (reportRequest i), response. unfold successCodes.
    rewrite Ha, Hr. simpl. repeat split; try assumption; try discriminate.
    destruct Hc as [-> | ->]; tauto.
  - exists i, (reportRequest i), response. unfold successCodes.
    rewrite Ha, Hr. simpl. repeat split; try assumption; try discriminate.
    destruct Hc as [-> | ->]; tauto.
  - exists i, (updateRequest i), response. unfold successCodes.
    rewrite Ha, Hr. simpl. repeat split; try assumption; try discriminate.
    rewrite Hc. tauto.
Qed.

Lemma success_inv_witness :
  exists i req response,
    readInputs (mockGetInput (Fixtures.table "report-build" "" "")) = ret i
    /\ requests (run (mockGetInput (Fixtures.table "report-build" "" ""))
                     Fixtures.created) = [req]
    /\ Fixtures.created req = inr response
    /\ In (statusCode response) (successCodes (action i))
    /\ result response <> ResultNull
    /\ map fst (outputs (run (mockGetInput (Fixtures.table "report-build" "" ""))
                             Fixtures.created))
       = ["build-id"; "deployment-status"].
Proof.
  apply (success_inv (mockGetInput (Fixtures.table "report-build" "" ""))
           Fixtures.created).
  reflexivity.
Defined.

(** X8. Each log line of a run is one of the four messages of the source,
    built from build-id, environment and status alone; the API key and the
    URL do not enter them. *)
Theorem info_messages (getInput : GetInput) (remote : Remote) (message : string) :
  In (Info message) (run getInput remote) ->
  exists i,
    readInputs getInput = ret i
    /\ (message = "Reporting build " ++ buildId i ++ " to GitLaunch..."
        \/ message = "Build " ++ buildId i ++ " reported successfully"
        \/ message = "Updating deployment status for build " ++ buildId i
                     ++ " in " ++ environment i ++ " to " ++ status i ++ "..."
        \/ message = "Deployment status updated successfully").
Proof.
  destruct (run_path getInput remote); simpl; intros Hin;
    repeat match goal with
           | H : _ \/ _ |- _ => destruct H as [H | H]
           end;
    try contradiction; try discriminate;
    match goal with
    | H : Info _ = Info _ |- _ => injection H as <-
    end;
    exists i; (split; [assumption |]);
    unfold reporting, reported, updating, updatedLine; tauto.
Qed.

Lemma info_messages_witness :
  exists i,
    readInputs (mockGetInput (Fixtures.table "update-status" "staging" "deployed"))
    = ret i
    /\ ("Updating deployment status for build abc123 in staging to deployed..."
        = "Reporting build " ++ buildId i ++ " to GitLaunch..."
        \/ "Updating deployment status for build abc123 in staging to deployed..."
           = "Build " ++ buildId i ++ " reported successfully"
        \/ "Updating deployment status for build abc123 in staging to deployed..."
           = "Updating deployment status for build " ++ buildId i
             ++ " in " ++ environment i ++ " to " ++ status i ++ "..."
        \/ "Updating deployment status for build abc123 in staging to deployed..."
           = "Deployment status updated successfully").
Proof.
  apply (info_messages
           (mockGetInput (Fixtures.table "update-status" "staging" "deployed"))
           Fixtures.updated).
  simpl. left. reflexivity.
Defined.

(* ------------------------------------------------------------------ *)
(** ** Accepted responses whose body is no build record *)

(** X9. A response with a success code of the action but without a body
    fails the run, on either action: the read of [result.buildId] throws, the
    message of the [TypeError] is reported and no output is set. *)
Theorem accepted_without_body (getInput : GetInput) (remote : Remote) (i : Inputs)
    (response : TypedResponse) :
  readInputs getInput = ret i ->
  received remote (run getInput remote) response ->
  In (statusCode response) (successCodes (action i)) ->
  result response = ResultNull ->
  failures (run getInput remote)
    = ["Cannot read properties of null (reading 'buildId')"]
  /\ outputs (run getInput remote) = [].
Proof.
  intros R Hrec Hcode Hr.
  destruct (received_inv _ remote _ R _ Hrec)
    as [[Ha Hreq] | [Ha [He [Hv Hreq]]]];
    unfold successCodes in Hcode; rewrite Ha in Hcode; simpl in Hcode.
  - rewrite (run_report _ remote _ R Ha), Hreq, reportMapped_accepted, Hr
      by (destruct Hcode as [E | [E | []]]; rewrite <- E; tauto).
    split; reflexivity.
  - rewrite (run_update _ remote _ R Ha He Hv), Hreq, updateMapped_null
      by (try assumption; destruct Hcode as [E | []]; now rewrite <- E).
    split; reflexivity.
Qed.

Lemma accepted_without_body_witness :
  failures (run (mockGetInput (Fixtures.table "update-status" "staging" "deployed"))
                (Fixtures.respond 200 ResultNull))
    = ["Cannot read properties of null (reading 'buildId')"]
  /\ outputs (run (mockGetInput (Fixtures.table "update-status" "staging" "deployed"))
                  (Fixtures.respond 200 ResultNull))
     = [].
Proof.
  apply (accepted_without_body
           (mockGetInput (Fixtures.table "update-status" "staging" "deployed"))
           (Fixtures.respond 200 ResultNull)
           (Fixtures.config "update-status" "staging" "deployed")
           {| statusCode := 200; result := ResultNull |}).
  - reflexivity.
  - exists (updateRequest (Fixtures.config "update-status" "staging" "deployed")).
    split; [simpl; left |]; reflexivity.
  - simpl. left. reflexivity.
  - reflexivity.
Defined.

(** X10. [report-build] takes an error record received with 200 or 201 for a
    success: no failure is reported, the message of the body is dropped, and
    both outputs are set to [undefined]. *)
Theorem report_build_accepts_error_body (getInput : GetInput) (remote : Remote)
    (i : Inputs) (response : TypedResponse) (e : ErrorResponse) :
  readInputs getInput = ret i ->
  action i = "report-build" ->
  received remote (run getInput remote) response ->
  statusCode response = 200%Z \/ statusCode response = 201%Z ->
  result response = ResultError e ->
  failures (run getInput remote) = []
  /\ outputs (run getInput remote)
     = [("build-id", VUndefined); ("deployment-status", VUndefined)].
Proof.
  intros R Ha Hrec Hcode Hr.
  destruct (received_inv _ remote _ R _ Hrec)
    as [[_ Hreq] | [Hu _]]; [| rewrite Ha in Hu; discriminate Hu].
  rewrite (run_report _ remote _ R Ha), Hreq, reportMapped_accepted, Hr by tauto.
  split; reflexivity.
Qed.

Lemma report_build_accepts_error_body_witness :
  failures (run (mockGetInput (Fixtures.table "report-build" "" ""))
                (Fixtures.respond 200 (ResultError {| error := "quota exceeded" |})))
    = []
  /\ outputs (run (mockGetInput (Fixtures.table "report-build" "" ""))
                  (Fixtures.respond 200 (ResultError {| error := "quota exceeded" |})))
     = [("build-id", VUndefined); ("deployment-status", VUndefined)].
Proof.
  apply (report_build_accepts_error_body
           (mockGetInput (Fixtures.table "report-build" "" ""))
           (Fixtures.respond 200 (ResultError {| error := "quota exceeded" |}))
           (Fixtures.config "report-build" "" "")
           {| statusCode := 200;
              result := ResultError {| error := "quota exceeded" |} |}
           {| error := "quota exceeded" |}).
  - reflexivity.
  - reflexivity.
  - exists (reportRequest (Fixtures.config "report-build" "" "")).
    split; [simpl; left |]; reflexivity.
  - left. reflexivity.
  - reflexivity.
Defined.

(** X11. [update-status] does not: an error record received with 200 sets
    build-id to [undefined], then the read of the environment's entry throws
    and the run fails with the message of that [TypeError], which names the
    environment; the message of the body is dropped here too. *)
Theorem update_status_error_body (getInput : GetInput) (remote : Remote)
    (i : Inputs) (response : TypedResponse) (e : ErrorResponse) :
  readInputs getInput = ret i ->
  action i = "update-status" ->
  received remote (run getInput remote) response ->
  statusCode response = 200%Z ->
  result response = ResultError e ->
  failures (run getInput remote)
    = ["Cannot read properties of undefined (reading '" ++ environment i ++ "')"]
  /\ outputs (run getInput remote) = [("build-id", VUndefined)].
Proof.
  intros R Ha Hrec Hcode Hr.
  destruct (received_inv _ remote _ R _ Hrec)
    as [[Hb _] | [_ [He [Hv Hreq]]]]; [rewrite Ha in Hb; discriminate Hb |].
  rewrite (run_update _ remote _ R Ha He Hv), Hreq,
    (updateMapped_error_body _ _ e) by assumption.
  split; reflexivity.
Qed.

Lemma update_status_error_body_witness :
  failures (run (mockGetInput (Fixtures.table "update-status" "production" "error"))
                (Fixtures.respond 200 (ResultError {| error := "quota exceeded" |})))
    = ["Cannot read properties of undefined (reading 'production')"]
  /\ outputs (run (mockGetInput (Fixtures.table "update-status" "production" "error"))
                  (Fixtures.respond 200 (ResultError {| error := "quota exceeded" |})))
     = [("build-id", VUndefined)].
Proof.
  apply (update_status_error_body
           (mockGetInput (Fixtures.table "update-status" "production" "error"))
           (Fixtures.respond 200 (ResultError {| error := "quota exceeded" |}))
           (Fixtures.config "update-status" "production" "error")
           {| statusCode := 200;
              result := ResultError {| error := "quota exceeded" |} |}
           {| error := "quota exceeded" |}).
  - reflexivity.
  - reflexivity.
  - exists (updateRequest (Fixtures.config "update-status" "production" "error")).
    split; [simpl; left |]; reflexivity.
  - reflexivity.
  - reflexivity.
Defined.

Lemma outputs_before_failure_witness :
  exists i response,
    readInputs (mockGetInput (Fixtures.table "update-status" "staging" "deployed"))
    = ret i
    /\ action i = "update-status"
    /\ environment i <> ""
    /\ In (status i) ["deploying"; "deployed"; "error"; "cancelled"]
    /\ Fixtures.respond 200 (ResultError {| error := "build not found" |})
         (updateRequest i) = inr response
    /\ statusCode response = 200%Z
    /\ result response <> ResultNull
    /\ (forall b, result response <> ResultBuild b)
    /\ map fst (outputs (run (mockGetInput (Fixtures.table "update-status" "staging" "deployed"))
                             (Fixtures.respond 200 (ResultError {| error := "build not found" |}))))
       = ["build-id"].
Proof.
  apply (outputs_before_failure
           (mockGetInput (Fixtures.table "update-status" "staging" "deployed"))
           (Fixtures.respond 200 (ResultError {| error := "build not found" |})));
    discriminate.
Defined.

Lemma report_build_mapped_witness :
  requests (run (mockGetInput (Fixtures.table "report-build" "" ""))
                (Fixtures.respond 200 (Fixtures.build [("staging", "deployed")])))
  = [ {| verb := POST;
         url := "https://gitlaunch.io/api/v1/services/service123/builds";
         headers := [ ("Authorization", "Bearer pk_test_key");
                      ("Content-Type", "application/json") ];
         payload := [("buildId", "abc123")] |} ]
  /\ outputs (run (mockGetInput (Fixtures.table "report-build" "" ""))
                  (Fixtures.respond 200 (Fixtures.build [("staging", "deployed")])))
     = [ ("build-id", VString "abc123");
         ("deployment-status",
          VString (stringifyRecord [("staging", "deployed")])) ].
Proof.
  pose (T := report_build_mapped
               (mockGetInput (Fixtures.table "report-build" "" ""))
               (Fixtures.respond 200 (Fixtures.build [("staging", "deployed")]))
               (Fixtures.config "report-build" "" "")
               eq_refl eq_refl).
  split.
  - exact (proj1 T).
  - exact (proj2 (proj2 (proj2 T _ eq_refl) (or_introl eq_refl) _ eq_refl)).
Defined.

(* ------------------------------------------------------------------ *)
(** ** What the outputs and the messages are never *)

Lemma valOr_truthy (v : Value) (fallback : string) :
  fallback <> "" -> truthy (valOr v fallback) = true.
Proof.
  intros H. unfold valOr. destruct (truthy v) eqn:Hv; [exact Hv |].
  now apply truthy_string.
Qed.

Lemma valOr_defined (v : Value) (fallback : string) :
  fallback <> "" ->
  valOr v fallback <> VUndefined /\ valOr v fallback <> VString "".
Proof.
  intros H. pose proof (valOr_truthy v fallback H) as Ht.
  split; intros E; rewrite E in Ht; discriminate Ht.
Qed.

(** X15. After a successful [update-status] both outputs are set, and the
    value set for deployment-status is neither [undefined] nor the empty
    string: an empty or missing entry gives way to the status, which has
    passed validation. *)
Theorem update_status_output_nonempty (getInput : GetInput) (remote : Remote)
    (i : Inputs) :
  readInputs getInput = ret i ->
  action i = "update-status" ->
  failures (run getInput remote) = [] ->
  exists id v,
    outputs (run getInput remote)
    = [("build-id", id); ("deployment-status", v)]
    /\ v <> VUndefined
    /\ v <> VString "".
Proof.
  intros R Ha.
  destruct (run_path getInput remote)
    as [ e R' | j R' | j R' | j R' | j R' | j e R' | j r R' | j r b R' Hb
         | j r e R' Hb | j r R' | j e R' | j r R'
         | j r b R' Hu He Hv Hreq Hc Hr | j r e R' | j r R' ];
    simpl; intros Hnone; try discriminate Hnone;
    rewrite R in R'; injection R' as <-;
    try (rewrite Ha in Hb; discriminate Hb).
  eexists. eexists. split; [reflexivity |].
  apply valOr_defined. now apply valid_status_nonempty.
Qed.

Lemma update_status_output_nonempty_witness :
  exists id v,
    outputs (run (mockGetInput (Fixtures.table "update-status" "staging" "deployed"))
                 (Fixtures.respond 200 (Fixtures.build [("staging", "")])))
    = [("build-id", id); ("deployment-status", v)]
    /\ v <> VUndefined
    /\ v <> VString "".
Proof.
  apply (update_status_output_nonempty
           (mockGetInput (Fixtures.table "update-status" "staging" "deployed"))
           (Fixtures.respond 200 (Fixtures.build [("staging", "")]))
           (Fixtures.config "update-status" "staging" "deployed"));
    reflexivity.
Defined.



